(** * The sales dashboard and the Glue resources of DEEPAIDATAENG

    A shallow embedding of the two pieces of the repository that carry
    behaviour:

    - [plot_top_n_sales] and its widgets, from the notebook
      [Introduction to Data Engineering/C1_W2_Dashboard.ipynb];
    - the Glue crawler and ETL job declared in the Terraform fragment.

    Frames are lists of rows in index order.  The five columns of
    [product_sales_df] are the ones the Athena query selects.  The amount
    column [total_sales] is a column of 64-bit integers: its values lie in
    the int64 range and [sum] adds them as the machine does, wrapping
    around on overflow.  The three text columns hold plain strings with no
    missing value; [orderdate] may be not-a-time.  The pandas operations
    the function uses are modelled with the behaviour pandas gives them by
    default: [groupby] sorts the groups by key, [sum] adds the numbers of a
    group and concatenates the text of a column that is not a key, [head]
    with a negative count drops rows from the end.  pandas does not fix
    the order in which [sort_values] leaves rows with equal totals; here
    they keep their order, and no statement below depends on how ties are
    ordered, nor on the text of a column that is not a key, except where a
    frame is written out in full. *)

From Stdlib Require Import List ZArith String Bool Lia Permutation Sorted.
From Stdlib Require Import DecimalString.
From Stdlib Require OrderedTypeEx.
Import ListNotations.

Local Open Scope string_scope.
Local Open Scope list_scope.
Local Open Scope Z_scope.

(* ================================================================== *)
(** ** Dates and timestamps *)

(** A [datetime.date], as the date pickers deliver it, is represented by its
    proleptic Gregorian ordinal ([date.toordinal()]); Python orders dates by
    it. *)
Definition date := Z.

(** [ymd y m d] is the ordinal of the calendar day [y-m-d]. *)
Definition ymd (y m d : Z) : date :=
  let y' := if m <=? 2 then y - 1 else y in
  let era := y' / 400 in
  let yoe := y' - era * 400 in
  let mp := if m <=? 2 then m + 9 else m - 3 in
  let doy := (153 * mp + 2) / 5 + d - 1 in
  let doe := yoe * 365 + yoe / 4 - yoe / 100 + doy in
  era * 146097 + doe - 305.

(** A [pd.Timestamp]: nanoseconds since the epoch, or not-a-time. *)
Inductive Timestamp : Type :=
| NaT
| Ts (ns : Z).

Definition epoch_ordinal : Z := 719163.
Definition ns_per_day : Z := 86400 * 1000000000.

(** [pd.Timestamp(d)]: midnight of the day [d]; [None] (a cleared picker)
    becomes [NaT]. *)
Definition pd_Timestamp (d : option date) : Timestamp :=
  match d with
  | None => NaT
  | Some o => Ts ((o - epoch_ordinal) * ns_per_day)
  end.

(** Comparisons of timestamps; every comparison with [NaT] is false. *)
Definition ts_le (a b : Timestamp) : bool :=
  match a, b with
  | Ts x, Ts y => x <=? y
  | _, _ => false
  end.

Definition ts_ge (a b : Timestamp) : bool := ts_le b a.

(* ================================================================== *)
(** ** Rows and frames *)

(** A row once [orderdate] has been dropped. *)
Record Row : Type := mkRow {
  productline : string;
  productname : string;
  country : string;
  total_sales : Z
}.

(** A row of [product_sales_df]. *)
Record SalesRow : Type := mkSales {
  orderdate : Timestamp;
  sales : Row
}.

(** The text columns, which are the ones [groupby] is given as keys. *)
Inductive Column : Type :=
| productline_col
| productname_col
| country_col.

Definition get (c : Column) (r : Row) : string :=
  match c with
  | productline_col => productline r
  | productname_col => productname r
  | country_col => country r
  end.

Definition Column_eqb (a b : Column) : bool :=
  match a, b with
  | productline_col, productline_col => true
  | productname_col, productname_col => true
  | country_col, country_col => true
  | _, _ => false
  end.

Definition is_key (keys : list Column) (c : Column) : bool :=
  existsb (Column_eqb c) keys.

(** [df.drop('orderdate', axis=1)] *)
Definition drop_orderdate (df : list SalesRow) : list Row := map sales df.

(** [df[(df.orderdate >= lo) & (df.orderdate <= hi)]] *)
Definition in_range (lo hi : Timestamp) (r : SalesRow) : bool :=
  ts_ge (orderdate r) lo && ts_le (orderdate r) hi.

Definition between_dates (lo hi : Timestamp) (df : list SalesRow)
  : list SalesRow :=
  filter (in_range lo hi) df.

(** [df[df.<c> == v]] *)
Definition where_eq (c : Column) (v : string) (df : list Row) : list Row :=
  filter (fun r => String.eqb (get c r) v) df.

(* ------------------------------------------------------------------ *)
(** *** [groupby(keys).sum().reset_index()] *)

Definition Key := list string.

Definition key_of (keys : list Column) (r : Row) : Key :=
  map (fun c => get c r) keys.

Definition Key_eq_dec : forall a b : Key, {a = b} + {a <> b} :=
  list_eq_dec string_dec.

Definition Key_eqb (a b : Key) : bool :=
  if Key_eq_dec a b then true else false.

(** Keys are ordered as Python orders tuples of strings. *)
Fixpoint key_compare (a b : Key) : comparison :=
  match a, b with
  | [], [] => Eq
  | [], _ :: _ => Lt
  | _ :: _, [] => Gt
  | x :: a', y :: b' =>
      match String.compare x y with
      | Eq => key_compare a' b'
      | c => c
      end
  end.

Definition key_leb (a b : Key) : bool :=
  match key_compare a b with
  | Gt => false
  | _ => true
  end.

(** Insertion sort by a boolean order; elements that compare equal keep
    their order. *)
Fixpoint insert_by {A : Type} (leb : A -> A -> bool) (x : A) (l : list A)
  : list A :=
  match l with
  | [] => [x]
  | y :: l' => if leb x y then x :: l else y :: insert_by leb x l'
  end.

Definition sort_by {A : Type} (leb : A -> A -> bool) (l : list A) : list A :=
  fold_right (insert_by leb) [] l.

Definition sort_keys (ks : list Key) : list Key := sort_by key_leb ks.

(** The rows of the group with key [k], in frame order. *)
Definition group (keys : list Column) (k : Key) (df : list Row) : list Row :=
  filter (fun r => Key_eqb (key_of keys r) k) df.

(** The exact sum of a list of integers, as mathematics has it. *)
Definition sum_Z (l : list Z) : Z := fold_right Z.add 0 l.

(** A 64-bit signed integer holds the values from [-2^63] to [2^63 - 1];
    [int64_wrap] brings any integer into that range, modulo [2^64]. *)
Definition int64 (z : Z) : Prop := - 2 ^ 63 <= z < 2 ^ 63.

Definition int64_wrap (z : Z) : Z := (z + 2 ^ 63) mod 2 ^ 64 - 2 ^ 63.

(** Addition of two 64-bit integers. *)
Definition int64_add (a b : Z) : Z := int64_wrap (a + b).

(** [sum] on an int64 column: the values are added one after the other,
    in row order, each addition wrapping around. *)
Definition sum_int64 (l : list Z) : Z := fold_left int64_add l 0.

(** The value [sum] leaves in text column [c] for the group [g]: the key
    itself when [c] is a key, the concatenation of the group's values
    otherwise. *)
Definition sum_text (keys : list Column) (c : Column) (g : list Row)
  : string :=
  if is_key keys c
  then match g with
       | r :: _ => get c r
       | [] => ""
       end
  else String.concat "" (map (get c) g).

Definition sum_group (keys : list Column) (g : list Row) : Row :=
  {| productline := sum_text keys productline_col g;
     productname := sum_text keys productname_col g;
     country := sum_text keys country_col g;
     total_sales := sum_int64 (map total_sales g) |}.

Definition groupby_sum (keys : list Column) (df : list Row) : list Row :=
  map (fun k => sum_group keys (group keys k df))
      (sort_keys (nodup Key_eq_dec (map (key_of keys) df))).

(* ------------------------------------------------------------------ *)
(** *** [sort_values("total_sales", ascending=False)] and [head] *)

Definition sales_geb (a b : Row) : bool := total_sales b <=? total_sales a.

(** Rows in descending order of [total_sales].  Rows with equal totals
    keep their frame order here; the default sort of pandas may leave them
    in another order. *)
Definition sort_values (df : list Row) : list Row := sort_by sales_geb df.

(** [df.head(n)]: the first [n] rows, or all but the last [-n] rows when
    [n] is negative. *)
Definition head (n : Z) (df : list Row) : list Row :=
  if 0 <=? n
  then firstn (Z.to_nat n) df
  else firstn (List.length df - Z.to_nat (- n))%nat df.

Definition empty {A : Type} (df : list A) : bool :=
  match df with
  | [] => true
  | _ :: _ => false
  end.

(* ================================================================== *)
(** ** [plot_top_n_sales] *)

(** What a call does that can be observed: the plotting calls it makes and
    the lines it prints. *)
Inductive Event : Type :=
| Barplot (x y : string) (data : list Row)
| AxSet (xlabel ylabel title : string)
| Print (line : string).

(** The plotting library is outside the program; all that matters to the
    function is whether a call raises. *)
Record Seaborn : Type := mkSeaborn {
  barplot_raises : list Row -> bool;
  set_raises : string -> bool
}.

(** [f"{n}"] for an integer. *)
Definition str (n : Z) : string := NilZero.string_of_int (Z.to_int n).

(** The statements of the function up to the plotting block: the frame
    [filtered_df] and the title [title_str] they leave. *)
Definition filter_and_aggregate (product_sales_df : list SalesRow)
    (start_date end_date : option date) (country productline : string)
    (top_n : Z) : list Row * string :=
  let filtered_df :=
    between_dates (pd_Timestamp start_date) (pd_Timestamp end_date)
                  product_sales_df in
  let filtered_df := drop_orderdate filtered_df in
  let filtered_df :=
    groupby_sum [productline_col; productname_col; country_col] filtered_df in
  let title_str := ("Top " ++ str top_n ++ " Popular ")%string in
  let '(filtered_df, title_str) :=
    if negb (String.eqb productline "ALL")
    then (where_eq productline_col productline filtered_df,
          (title_str ++ productline)%string)
    else (groupby_sum [productname_col; country_col] filtered_df,
          (title_str ++ "Products")%string) in
  let '(filtered_df, title_str) :=
    if negb (String.eqb country "ALL")
    then (where_eq country_col country filtered_df,
          (title_str ++ " in " ++ country)%string)
    else (groupby_sum [productname_col] filtered_df, title_str) in
  (filtered_df, title_str).

Definition no_sales_message (productline country : string) : string :=
  ("There were no sales of " ++ productline ++ " to " ++ country
   ++ " during that period")%string.

(** The plotting block. *)
Definition plot_block (sns : Seaborn) (filtered_df : list Row)
    (title_str : string) (country productline : string) (top_n : Z)
  : list Event :=
  if negb (empty filtered_df)
  then
    let data := head top_n (sort_values filtered_df) in
    Barplot "total_sales" "productname" data ::
    (if barplot_raises sns data
     then [Print "error"]
     else AxSet "Total Sales" "Product Name" title_str ::
          (if set_raises sns title_str then [Print "error"] else []))
  else [Print (no_sales_message productline country)].

Definition plot_top_n_sales (sns : Seaborn) (product_sales_df : list SalesRow)
    (start_date end_date : option date) (country productline : string)
    (top_n : Z) : list Event :=
  let '(filtered_df, title_str) :=
    filter_and_aggregate product_sales_df start_date end_date
                         country productline top_n in
  plot_block sns filtered_df title_str country productline top_n.

(** The frame handed to [sns.barplot], when one is. *)
Definition plot_data (product_sales_df : list SalesRow)
    (start_date end_date : option date) (country productline : string)
    (top_n : Z) : list Row :=
  head top_n
    (sort_values
       (fst (filter_and_aggregate product_sales_df start_date end_date
                                  country productline top_n))).

(* ================================================================== *)
(** ** The function over a store of frames

    pandas frames are objects, and [product_sales_df] is a global name bound
    to one of them.  Here frames live in a heap, names hold references, and
    each pandas call of the function reads the frame it is applied to and
    allocates the frame it returns. *)

Inductive Frame : Type :=
| SalesFrame (rows : list SalesRow)
| RowFrame (rows : list Row).

Definition ref := nat.

Record Store : Type := mkStore {
  heap : list Frame;
  product_sales_df : ref;
  stdout : list Event
}.

(** A computation over the store; [None] is an exception that leaves the
    function. *)
Definition M (A : Type) : Type := Store -> option (A * Store).

Definition ret {A : Type} (a : A) : M A := fun st => Some (a, st).

Definition bind {A B : Type} (m : M A) (k : A -> M B) : M B :=
  fun st =>
    match m st with
    | Some (a, st') => k a st'
    | None => None
    end.

Notation "x <- m ;; k" := (bind m (fun x => k))
  (at level 61, m at next level, right associativity).
Notation "' p <- m ;; k" := (bind m (fun x => match x with p => k end))
  (at level 61, p pattern, m at next level, right associativity).
Notation "m ;;; k" := (bind m (fun _ => k))
  (at level 61, right associativity).

Definition alloc (f : Frame) : M ref :=
  fun st =>
    Some (List.length (heap st),
          mkStore (heap st ++ [f]) (product_sales_df st) (stdout st)).

Definition global_product_sales_df : M ref :=
  fun st => Some (product_sales_df st, st).

Definition sales_rows (r : ref) : M (list SalesRow) :=
  fun st =>
    match nth_error (heap st) r with
    | Some (SalesFrame rows) => Some (rows, st)
    | _ => None
    end.

Definition frame_rows (r : ref) : M (list Row) :=
  fun st =>
    match nth_error (heap st) r with
    | Some (RowFrame rows) => Some (rows, st)
    | _ => None
    end.

Definition emit (e : Event) : M unit :=
  fun st =>
    Some (tt, mkStore (heap st) (product_sales_df st) (stdout st ++ [e])).

Definition st_between_dates (lo hi : Timestamp) (df : ref) : M ref :=
  rows <- sales_rows df ;; alloc (SalesFrame (between_dates lo hi rows)).

Definition st_drop_orderdate (df : ref) : M ref :=
  rows <- sales_rows df ;; alloc (RowFrame (drop_orderdate rows)).

Definition st_groupby_sum (keys : list Column) (df : ref) : M ref :=
  rows <- frame_rows df ;; alloc (RowFrame (groupby_sum keys rows)).

Definition st_where_eq (c : Column) (v : string) (df : ref) : M ref :=
  rows <- frame_rows df ;; alloc (RowFrame (where_eq c v rows)).

Definition st_sort_values (df : ref) : M ref :=
  rows <- frame_rows df ;; alloc (RowFrame (sort_values rows)).

Definition st_head (n : Z) (df : ref) : M ref :=
  rows <- frame_rows df ;; alloc (RowFrame (head n rows)).

Definition st_empty (df : ref) : M bool :=
  rows <- frame_rows df ;; ret (empty rows).

(** [sns.barplot(x=..., y=..., data=df)]; [true] when the call returned. *)
Definition st_barplot (sns : Seaborn) (x y : string) (df : ref) : M bool :=
  rows <- frame_rows df ;;
  emit (Barplot x y rows) ;;;
  ret (negb (barplot_raises sns rows)).

(** [ax.set(xlabel=..., ylabel=..., title=...)]; [true] when the call
    returned. *)
Definition st_ax_set (sns : Seaborn) (xlabel ylabel title : string) : M bool :=
  emit (AxSet xlabel ylabel title) ;;;
  ret (negb (set_raises sns title)).

(** The statements up to the plotting block: they leave a reference to
    [filtered_df] and the title. *)
Definition filter_and_aggregate_st
    (start_date end_date : option date) (country productline : string)
    (top_n : Z) : M (ref * string) :=
  df <- global_product_sales_df ;;
  filtered_df <-
    st_between_dates (pd_Timestamp start_date) (pd_Timestamp end_date) df ;;
  filtered_df <- st_drop_orderdate filtered_df ;;
  filtered_df <-
    st_groupby_sum [productline_col; productname_col; country_col]
                   filtered_df ;;
  let title_str := ("Top " ++ str top_n ++ " Popular ")%string in
  '(filtered_df, title_str) <-
    (if negb (String.eqb productline "ALL")
     then f <- st_where_eq productline_col productline filtered_df ;;
          ret (f, (title_str ++ productline)%string)
     else f <- st_groupby_sum [productname_col; country_col] filtered_df ;;
          ret (f, (title_str ++ "Products")%string)) ;;
  (if negb (String.eqb country "ALL")
   then f <- st_where_eq country_col country filtered_df ;;
        ret (f, (title_str ++ " in " ++ country)%string)
   else f <- st_groupby_sum [productname_col] filtered_df ;;
        ret (f, title_str)).

(** The plotting block. *)
Definition plot_block_st (sns : Seaborn) (filtered_df : ref)
    (title_str : string) (country productline : string) (top_n : Z)
  : M unit :=
  is_empty <- st_empty filtered_df ;;
  if negb is_empty
  then
    sorted <- st_sort_values filtered_df ;;
    data <- st_head top_n sorted ;;
    drawn <- st_barplot sns "total_sales" "productname" data ;;
    if drawn
    then
      labelled <- st_ax_set sns "Total Sales" "Product Name" title_str ;;
      if labelled then ret tt else emit (Print "error")
    else emit (Print "error")
  else emit (Print (no_sales_message productline country)).

Definition plot_top_n_sales_st (sns : Seaborn)
    (start_date end_date : option date) (country productline : string)
    (top_n : Z) : M unit :=
  '(filtered_df, title_str) <-
    filter_and_aggregate_st start_date end_date country productline top_n ;;
  plot_block_st sns filtered_df title_str country productline top_n.

(* ================================================================== *)
(** ** The cascade as the design notes word it

    "filter by date range, then optionally filter/aggregate by product line,
    then optionally filter/aggregate by country, then sort descending by
    aggregate sum, then take top N".  [cascade_as_worded] has these steps and
    no other; [cascade] has in addition the sum per (product line, product
    name, country) that the function computes right after the date filter. *)

Definition date_step (start_date end_date : option date)
    (df : list SalesRow) : list Row :=
  drop_orderdate
    (between_dates (pd_Timestamp start_date) (pd_Timestamp end_date) df).

Definition productline_step (productline : string) (df : list Row)
  : list Row :=
  if String.eqb productline "ALL"
  then groupby_sum [productname_col; country_col] df
  else where_eq productline_col productline df.

Definition country_step (country : string) (df : list Row) : list Row :=
  if String.eqb country "ALL"
  then groupby_sum [productname_col] df
  else where_eq country_col country df.

Definition cascade_as_worded (df : list SalesRow)
    (start_date end_date : option date) (country productline : string)
    (top_n : Z) : list Row :=
  head top_n
    (sort_values
       (country_step country
          (productline_step productline
             (date_step start_date end_date df)))).

Definition cascade (df : list SalesRow)
    (start_date end_date : option date) (country productline : string)
    (top_n : Z) : list Row :=
  head top_n
    (sort_values
       (country_step country
          (productline_step productline
             (groupby_sum [productline_col; productname_col; country_col]
                (date_step start_date end_date df))))).

(* ================================================================== *)
(** ** The widgets *)

Inductive Widget : Type :=
| DatePicker (value : Timestamp) (description : string)
| Dropdown (options : list string) (value : string) (description : string)
| IntSlider (value min max step : Z) (description : string).

(** [Series.unique()]: the values in order of first appearance. *)
Fixpoint unique (l : list string) : list string :=
  match l with
  | [] => []
  | x :: l' => x :: filter (fun y => negb (String.eqb y x)) (unique l')
  end.

(** [sorted(...)] on strings. *)
Definition sorted (l : list string) : list string := sort_by String.leb l.

(** [Series.min()] and [Series.max()] on timestamps skip [NaT]. *)
Definition ts_min (a b : Timestamp) : Timestamp :=
  match a, b with
  | NaT, _ => b
  | _, NaT => a
  | Ts x, Ts y => Ts (Z.min x y)
  end.

Definition ts_max (a b : Timestamp) : Timestamp :=
  match a, b with
  | NaT, _ => b
  | _, NaT => a
  | Ts x, Ts y => Ts (Z.max x y)
  end.

Definition orderdate_min (df : list SalesRow) : Timestamp :=
  fold_right ts_min NaT (map orderdate df).

Definition orderdate_max (df : list SalesRow) : Timestamp :=
  fold_right ts_max NaT (map orderdate df).

Definition country_widget (df : list SalesRow) : Widget :=
  Dropdown ("ALL" :: sorted (unique (map (fun r => country (sales r)) df)))
           "ALL" "Country".

Definition productline_widget (df : list SalesRow) : Widget :=
  Dropdown ("ALL" :: sorted (unique (map (fun r => productline (sales r)) df)))
           "ALL" "Product Line".

(** The keyword arguments of [widgets.interact], in the order written. *)
Definition interact_widgets (df : list SalesRow) : list (string * Widget) :=
  [ ("start_date", DatePicker (orderdate_min df) "Start Date");
    ("end_date", DatePicker (orderdate_max df) "End Date");
    ("country", country_widget df);
    ("productline", productline_widget df);
    ("top_n", IntSlider 5 1 10 1 "Top N") ].

(** The parameters of the decorated function. *)
Definition plot_top_n_sales_parameters : list string :=
  ["start_date"; "end_date"; "country"; "productline"; "top_n"].

Definition is_barplot (e : Event) : bool :=
  match e with Barplot _ _ _ => true | _ => false end.

(* ================================================================== *)
(** ** The Glue resources *)

Module Glue.

(** The input variables the fragment refers to ([var.<name>]). *)
Record Vars : Type := mkVars {
  project : string;
  host : string;
  port : string;
  database : string;
  username : string;
  password : string;
  data_lake_bucket : string;
  scripts_bucket : string;
  scripts_key : string
}.

(** Attributes of resources and data sources declared elsewhere. *)
Record Refs : Type := mkRefs {
  glue_role_arn : string;
  public_a_availability_zone : string;
  public_a_id : string;
  db_sg_id : string
}.

Record catalog_database : Type := mkDatabase {
  db_name : string;
  db_description : string
}.

Record connection : Type := mkConnection {
  conn_name : string;
  connection_properties : list (string * string);
  availability_zone : string;
  security_group_id_list : list string;
  subnet_id : string
}.

Record crawler : Type := mkCrawler {
  crawler_name : string;
  database_name : string;
  role : string;
  s3_target_path : string;
  recrawl_behavior : string;
  delete_behavior : string;
  update_behavior : string
}.

Record job : Type := mkJob {
  job_name : string;
  role_arn : string;
  glue_version : string;
  connections : list string;
  command_name : string;
  script_location : string;
  python_version : Z;
  default_arguments : list (string * string);
  timeout : Z;
  number_of_workers : Z;
  worker_type : string
}.

Section Resources.
Variable var : Vars.
Variable refs : Refs.

Definition ml_database : catalog_database :=
  {| db_name := (project var ++ "-ml-db")%string;
     db_description := "Database for performing ml from OLTP data" |}.

Definition rds_connection : connection :=
  {| conn_name := (project var ++ "-rds-connection")%string;
     connection_properties :=
       [ ("JDBC_CONNECTION_URL",
          ("jdbc:mysql://" ++ host var ++ ":" ++ port var ++ "/"
           ++ database var)%string);
         ("USERNAME", username var);
         ("PASSWORD", password var) ];
     availability_zone := public_a_availability_zone refs;
     security_group_id_list := [db_sg_id refs];
     subnet_id := public_a_id refs |}.

Definition s3_crawler : crawler :=
  {| crawler_name := (project var ++ "-ml-db-crawler")%string;
     database_name := db_name ml_database;
     role := glue_role_arn refs;
     s3_target_path := ("s3://" ++ data_lake_bucket var ++ "/gold")%string;
     recrawl_behavior := "CRAWL_NEW_FOLDERS_ONLY";
     delete_behavior := "LOG";
     update_behavior := "LOG" |}.

Definition etl_job : job :=
  {| job_name := (project var ++ "-etl-job")%string;
     role_arn := glue_role_arn refs;
     glue_version := "4.0";
     connections := [conn_name rds_connection];
     command_name := "glueetl";
     script_location :=
       ("s3://" ++ scripts_bucket var ++ "/" ++ scripts_key var)%string;
     python_version := 3;
     default_arguments :=
       [ ("--enable-job-insights", "true");
         ("--job-language", "python");
         ("--glue_connection", conn_name rds_connection);
         ("--glue_database", db_name ml_database);
         ("--target_path", ("s3://" ++ data_lake_bucket var)%string) ];
     timeout := 5;
     number_of_workers := 2;
     worker_type := "G.1X" |}.

End Resources.

End Glue.

(* ================================================================== *)
(** ** What the claims are stated with *)

(** The frame [filtered_df] as it reaches the plotting block. *)
Definition aggregated (df : list SalesRow)
    (start_date end_date : option date) (country productline : string)
    (top_n : Z) : list Row :=
  fst (filter_and_aggregate df start_date end_date country productline top_n).

(** The rows a date selection keeps. *)
Definition in_dates (start_date end_date : option date) (r : SalesRow)
  : bool :=
  in_range (pd_Timestamp start_date) (pd_Timestamp end_date) r.

(** The rows a selection of the two dropdowns keeps; ["ALL"] keeps all. *)
Definition selected (c pl : string) (r : Row) : bool :=
  (String.eqb pl "ALL" || String.eqb (productline r) pl)
  && (String.eqb c "ALL" || String.eqb (country r) c).

Definition named (n : string) (r : Row) : bool :=
  String.eqb (productname r) n.

(** The exact sum of [total_sales] over the rows of a frame that satisfy
    [Q]. *)
Definition total_where (Q : Row -> bool) (df : list Row) : Z :=
  sum_Z (map total_sales (filter Q df)).

(** The same over [product_sales_df]. *)
Definition sales_total (Q : SalesRow -> bool) (df : list SalesRow) : Z :=
  sum_Z (map (fun r => total_sales (sales r)) (filter Q df)).

(** What [sum] gives for the column [total_sales] of the rows of
    [product_sales_df] that satisfy [Q]. *)
Definition column_sum (Q : SalesRow -> bool) (df : list SalesRow) : Z :=
  sum_int64 (map (fun r => total_sales (sales r)) (filter Q df)).

(** [Q] does not tell apart rows that agree on the columns [keys]. *)
Definition respects (keys : list Column) (Q : Row -> bool) : Prop :=
  forall r r', key_of keys r = key_of keys r' -> Q r = Q r'.

Definition all_keys : list Column :=
  [productline_col; productname_col; country_col].

(** A frame is in descending order of [total_sales]. *)
Definition descending (df : list Row) : Prop :=
  StronglySorted (fun a b => total_sales b <= total_sales a) df.

(** The frame of the examples. *)
Definition example_sales : list SalesRow :=
  [ mkSales (pd_Timestamp (Some (ymd 2024 1 1)))
            (mkRow "Motorcycles" "P1" "USA" 100);
    mkSales (pd_Timestamp (Some (ymd 2024 2 1)))
            (mkRow "Motorcycles" "P1" "France" 50) ].

(** Two sales of one product to one country on two days. *)
Definition two_days_sales : list SalesRow :=
  [ mkSales (pd_Timestamp (Some (ymd 2024 1 1)))
            (mkRow "Motorcycles" "P1" "USA" 100);
    mkSales (pd_Timestamp (Some (ymd 2024 1 2)))
            (mkRow "Motorcycles" "P1" "USA" 50) ].

(** Two sales of one product to one country on two days, of [2^62] each:
    both amounts are 64-bit integers, their sum is not. *)
Definition overflowing_sales : list SalesRow :=
  [ mkSales (pd_Timestamp (Some (ymd 2024 1 1)))
            (mkRow "Motorcycles" "P1" "USA" 4611686018427387904);
    mkSales (pd_Timestamp (Some (ymd 2024 1 2)))
            (mkRow "Motorcycles" "P1" "USA" 4611686018427387904) ].

(** A product sold under two product lines and to two countries. *)
Definition two_lines_sales : list SalesRow :=
  [ mkSales (pd_Timestamp (Some (ymd 2024 1 1)))
            (mkRow "Motorcycles" "P1" "USA" 100);
    mkSales (pd_Timestamp (Some (ymd 2024 1 5)))
            (mkRow "Classic Cars" "P1" "USA" 50);
    mkSales (pd_Timestamp (Some (ymd 2024 1 7)))
            (mkRow "Motorcycles" "P1" "France" 7) ].

(** The start date is a later day than the end date. *)
Definition after (start_date end_date : option date) : Prop :=
  match start_date, end_date with
  | Some a, Some b => b < a
  | _, _ => False
  end.

(** A store in which [product_sales_df] names the only frame. *)
Definition initial_store (df : list SalesRow) : Store :=
  mkStore [SalesFrame df] 0%nat [].

(** A plotting library whose calls return. *)
Definition sns_ok : Seaborn := mkSeaborn (fun _ => false) (fun _ => false).

(** A plotting library whose [barplot] raises. *)
Definition sns_failing : Seaborn := mkSeaborn (fun _ => true) (fun _ => false).

(* ================================================================== *)
(** ** The rest of the notebook *)

(** The options of a dropdown. *)
Definition options (w : Widget) : list string :=
  match w with
  | Dropdown o _ _ => o
  | _ => []
  end.

(** A list of strings is in ascending order. *)
Definition ascending (l : list string) : Prop :=
  Sorted (fun a b => String.leb a b = true) l.

(** The sum of [total_sales] over a frame. *)
Definition grand_total (df : list Row) : Z := sum_Z (map total_sales df).

(** What the bar chart draws of a frame: [y="productname"],
    [x="total_sales"], row by row. *)
Definition bars (df : list Row) : list (string * Z) :=
  map (fun r => (productname r, total_sales r)) df.

(** The rows of a frame are in ascending order of a list of key columns;
    of the product name. *)
Definition sorted_by_keys (keys : list Column) (df : list Row) : Prop :=
  StronglySorted
    (fun r r' => key_leb (key_of keys r) (key_of keys r') = true) df.

Definition sorted_by_name (df : list Row) : Prop :=
  StronglySorted
    (fun r r' => String.leb (productname r) (productname r') = true) df.

(** The cell that shows the ten countries with the largest sales:
    [product_sales_by_country_df.sort_values("total_sales",
    ascending=False).head(10)].  The frame has the two columns the second
    query selects. *)
Module ByCountry.

Record Row : Type := mkRow {
  country : string;
  total_sales : Z
}.

Definition sales_geb (a b : Row) : bool := total_sales b <=? total_sales a.

Definition sort_values (df : list Row) : list Row := sort_by sales_geb df.

Definition head (n : Z) (df : list Row) : list Row :=
  if 0 <=? n
  then firstn (Z.to_nat n) df
  else firstn (List.length df - Z.to_nat (- n))%nat df.

Definition top_countries (product_sales_by_country_df : list Row)
  : list Row :=
  head 10 (sort_values product_sales_by_country_df).

Definition descending (df : list Row) : Prop :=
  StronglySorted (fun a b => total_sales b <= total_sales a) df.

End ByCountry.

(* ================================================================== *)
(** ** Dates *)

Example ymd_epoch : ymd 1970 1 1 = epoch_ordinal.
Proof. reflexivity. Qed.

Example ymd_leap_day :
  ymd 2024 2 29 = ymd 2024 2 28 + 1 /\ ymd 2024 3 1 = ymd 2024 2 29 + 1
  /\ ymd 2023 3 1 = ymd 2023 2 28 + 1 /\ ymd 2024 1 1 = 738886.
Proof. repeat split. Qed.

(* ================================================================== *)
(** ** Sorting *)

Section SortBy.
Context {A : Type}.
Variable leb : A -> A -> bool.

Lemma insert_by_perm (x : A) (l : list A) :
  Permutation (insert_by leb x l) (x :: l).
Proof.
  induction l as [|y l IH]; simpl.
  - apply Permutation_refl.
  - destruct (leb x y).
    + apply Permutation_refl.
    + eapply perm_trans; [apply perm_skip, IH | apply perm_swap].
Qed.

Lemma sort_by_perm (l : list A) : Permutation (sort_by leb l) l.
Proof.
  induction l as [|x l IH]; simpl.
  - apply perm_nil.
  - eapply perm_trans; [apply insert_by_perm | apply perm_skip, IH].
Qed.

Lemma sort_by_In (l : list A) (x : A) : In x (sort_by leb l) <-> In x l.
Proof.
  split; apply Permutation_in;
    [apply sort_by_perm | apply Permutation_sym, sort_by_perm].
Qed.

Lemma sort_by_length (l : list A) :
  List.length (sort_by leb l) = List.length l.
Proof. apply Permutation_length, sort_by_perm. Qed.

Lemma sort_by_NoDup (l : list A) : NoDup l -> NoDup (sort_by leb l).
Proof.
  intro H. eapply Permutation_NoDup; [|exact H].
  apply Permutation_sym, sort_by_perm.
Qed.

End SortBy.

Lemma insert_desc_sorted (r : Row) (l : list Row) :
  descending l -> descending (insert_by sales_geb r l).
Proof.
  unfold descending.
  induction l as [|y l IH]; intro H; simpl.
  - constructor; [constructor | constructor].
  - inversion H as [|? ? Hl Hy]; subst.
    unfold sales_geb at 1.
    destruct (total_sales y <=? total_sales r) eqn:E.
    + apply Z.leb_le in E.
      constructor; [exact H|].
      constructor; [exact E|].
      rewrite Forall_forall in Hy |- *.
      intros z Hz. specialize (Hy z Hz). lia.
    + apply Z.leb_gt in E.
      constructor; [apply IH; exact Hl|].
      rewrite Forall_forall in Hy |- *.
      intros z Hz.
      apply (Permutation_in _ (insert_by_perm sales_geb r l)) in Hz.
      destruct Hz as [<-|Hz]; [lia | apply Hy; exact Hz].
Qed.

Lemma sort_values_descending (df : list Row) : descending (sort_values df).
Proof.
  unfold sort_values.
  induction df as [|r df IH]; simpl.
  - constructor.
  - apply insert_desc_sorted, IH.
Qed.

(* ================================================================== *)
(** ** [head] *)

Lemma In_firstn {A : Type} (n : nat) (l : list A) (x : A) :
  In x (firstn n l) -> In x l.
Proof.
  intro H. rewrite <- (firstn_skipn n l).
  apply in_or_app. left. exact H.
Qed.

Lemma head_In (n : Z) (df : list Row) (p : Row) :
  In p (head n df) -> In p df.
Proof.
  unfold head. destruct (0 <=? n); apply In_firstn.
Qed.

Lemma head_length (n : Z) (df : list Row) :
  0 <= n ->
  Z.of_nat (List.length (head n df)) = Z.min n (Z.of_nat (List.length df)).
Proof.
  intro Hn. unfold head.
  destruct (0 <=? n) eqn:E; [|apply Z.leb_gt in E; lia].
  rewrite length_firstn. lia.
Qed.


(* ================================================================== *)
(** ** Sums *)

Lemma sum_Z_map_add {A : Type} (f g : A -> Z) (l : list A) :
  sum_Z (map (fun x => f x + g x) l) = sum_Z (map f l) + sum_Z (map g l).
Proof.
  induction l as [|x l IH]; simpl; [reflexivity | rewrite IH; lia].
Qed.

Lemma sum_Z_map_ext_in {A : Type} (f g : A -> Z) (l : list A) :
  (forall x, In x l -> f x = g x) -> sum_Z (map f l) = sum_Z (map g l).
Proof.
  intro H. f_equal. apply map_ext_in. exact H.
Qed.

Lemma sum_Z_map_zero {A : Type} (l : list A) :
  sum_Z (map (fun _ => 0) l) = 0.
Proof.
  induction l as [|x l IH]; simpl; [reflexivity | exact IH].
Qed.

Lemma sum_Z_filter {A : Type} (Q : A -> bool) (w : A -> Z) (l : list A) :
  sum_Z (map w (filter Q l))
  = sum_Z (map (fun r => if Q r then w r else 0) l).
Proof.
  induction l as [|x l IH]; simpl; [reflexivity|].
  destruct (Q x); simpl; rewrite IH; reflexivity.
Qed.

(** *** 64-bit sums *)

Ltac int64_arith :=
  unfold int64, int64_add, int64_wrap in *;
  change (2 ^ 63) with 9223372036854775808 in *;
  change (2 ^ 64) with 18446744073709551616 in *;
  Z.div_mod_to_equations; lia.

Lemma int64_wrap_range (z : Z) : int64 (int64_wrap z).
Proof. int64_arith. Qed.

Lemma int64_wrap_small (z : Z) : int64 z -> int64_wrap z = z.
Proof. intro H. int64_arith. Qed.

Lemma int64_wrap_idem (z : Z) : int64_wrap (int64_wrap z) = int64_wrap z.
Proof. apply int64_wrap_small, int64_wrap_range. Qed.

Lemma int64_wrap_add_l (a b : Z) :
  int64_wrap (int64_wrap a + b) = int64_wrap (a + b).
Proof. int64_arith. Qed.

Lemma int64_wrap_add (a b : Z) :
  int64_wrap (int64_wrap a + int64_wrap b) = int64_wrap (a + b).
Proof.
  rewrite int64_wrap_add_l, Z.add_comm, int64_wrap_add_l, Z.add_comm.
  reflexivity.
Qed.

Lemma fold_int64_add (l : list Z) (a : Z) :
  fold_left int64_add l (int64_wrap a) = int64_wrap (a + sum_Z l).
Proof.
  revert a. induction l as [|x l IH]; intro a; simpl.
  - rewrite Z.add_0_r. reflexivity.
  - unfold int64_add at 2. rewrite int64_wrap_add_l, IH.
    f_equal. lia.
Qed.

(** Adding with wrap-around gives the exact sum brought into the int64
    range. *)
Lemma sum_int64_wrap (l : list Z) : sum_int64 l = int64_wrap (sum_Z l).
Proof.
  unfold sum_int64. change 0 with (int64_wrap 0) at 1.
  rewrite fold_int64_add. reflexivity.
Qed.

Lemma int64_wrap_sum_ext {A : Type} (f g : A -> Z) (l : list A) :
  (forall x, In x l -> int64_wrap (f x) = int64_wrap (g x)) ->
  int64_wrap (sum_Z (map f l)) = int64_wrap (sum_Z (map g l)).
Proof.
  induction l as [|x l IH]; simpl; intro H; [reflexivity|].
  rewrite <- (int64_wrap_add (f x)), <- (int64_wrap_add (g x)).
  rewrite (H x) by (left; reflexivity).
  rewrite IH by (intros y Hy; apply H; right; exact Hy).
  reflexivity.
Qed.

Lemma Key_eqb_eq (a b : Key) : Key_eqb a b = true <-> a = b.
Proof.
  unfold Key_eqb. destruct (Key_eq_dec a b); split; congruence.
Qed.

Lemma Key_eqb_refl (a : Key) : Key_eqb a a = true.
Proof. apply Key_eqb_eq. reflexivity. Qed.

Lemma Key_eqb_neq (a b : Key) : a <> b -> Key_eqb a b = false.
Proof.
  unfold Key_eqb. destruct (Key_eq_dec a b); congruence.
Qed.

Lemma sum_Z_absent (k0 : Key) (v : Z) (ks : list Key) :
  ~ In k0 ks ->
  sum_Z (map (fun k => if Key_eqb k0 k then v else 0) ks) = 0.
Proof.
  induction ks as [|k ks IH]; simpl; intro H; [reflexivity|].
  rewrite Key_eqb_neq by (intro E; apply H; left; congruence).
  rewrite IH by (intro E; apply H; right; exact E).
  reflexivity.
Qed.

Lemma sum_Z_indicator (k0 : Key) (v : Z) (ks : list Key) :
  NoDup ks -> In k0 ks ->
  sum_Z (map (fun k => if Key_eqb k0 k then v else 0) ks) = v.
Proof.
  induction 1 as [|k ks Hk Hnd IH]; simpl; intro Hin; [contradiction|].
  destruct Hin as [->|Hin].
  - rewrite Key_eqb_refl, sum_Z_absent by exact Hk. lia.
  - rewrite Key_eqb_neq by (intro E; subst; contradiction).
    rewrite IH by exact Hin. reflexivity.
Qed.

(* ================================================================== *)
(** ** Groups *)

Lemma group_In (keys : list Column) (k : Key) (df : list Row) (r : Row) :
  In r (group keys k df) <-> In r df /\ key_of keys r = k.
Proof.
  unfold group. rewrite filter_In, Key_eqb_eq. reflexivity.
Qed.

(** Summing group by group is summing the frame. *)
Lemma sum_over_groups (keys : list Column) (w : Row -> Z)
    (ks : list Key) (df : list Row) :
  NoDup ks ->
  (forall r, In r df -> In (key_of keys r) ks) ->
  sum_Z (map (fun k => sum_Z (map w (group keys k df))) ks)
  = sum_Z (map w df).
Proof.
  intros Hnd. induction df as [|r df IH]; intro Hin.
  - simpl. apply sum_Z_map_zero.
  - rewrite (sum_Z_map_ext_in _
      (fun k => (if Key_eqb (key_of keys r) k then w r else 0)
                + sum_Z (map w (group keys k df)))).
    + rewrite sum_Z_map_add, IH by (intros; apply Hin; right; assumption).
      rewrite sum_Z_indicator; [reflexivity | exact Hnd |].
      apply Hin. left. reflexivity.
    + intros k _. simpl.
      destruct (Key_eqb (key_of keys r) k); reflexivity.
Qed.

Lemma Column_eqb_refl (c : Column) : Column_eqb c c = true.
Proof. destruct c; reflexivity. Qed.

Lemma is_key_In (keys : list Column) (c : Column) :
  In c keys -> is_key keys c = true.
Proof.
  intro H. unfold is_key. apply existsb_exists.
  exists c. split; [exact H | apply Column_eqb_refl].
Qed.

Lemma get_sum_group (keys : list Column) (c : Column) (g : list Row) :
  get c (sum_group keys g) = sum_text keys c g.
Proof. destruct c; reflexivity. Qed.

Lemma key_of_sum_group (keys : list Column) (r : Row) (g : list Row) :
  key_of keys (sum_group keys (r :: g)) = key_of keys r.
Proof.
  unfold key_of. apply map_ext_in. intros c Hc.
  rewrite get_sum_group. unfold sum_text.
  rewrite is_key_In by exact Hc. reflexivity.
Qed.

Lemma group_nonempty (keys : list Column) (k : Key) (df : list Row) :
  In k (map (key_of keys) df) ->
  exists r g, group keys k df = r :: g /\ In r df /\ key_of keys r = k.
Proof.
  intro H. apply in_map_iff in H. destruct H as (r0 & Hk & Hr0).
  assert (Hg : In r0 (group keys k df)) by (apply group_In; auto).
  destruct (group keys k df) as [|r g] eqn:E; [contradiction|].
  exists r, g. split; [reflexivity|].
  apply group_In. rewrite E. left. reflexivity.
Qed.

Lemma key_of_group_row (keys : list Column) (k : Key) (df : list Row) :
  In k (map (key_of keys) df) ->
  key_of keys (sum_group keys (group keys k df)) = k.
Proof.
  intro H. destruct (group_nonempty keys k df H) as (r & g & -> & _ & Hk).
  rewrite key_of_sum_group. exact Hk.
Qed.

Lemma group_keys_In (keys : list Column) (df : list Row) (k : Key) :
  In k (sort_keys (nodup Key_eq_dec (map (key_of keys) df)))
  <-> In k (map (key_of keys) df).
Proof.
  unfold sort_keys. rewrite sort_by_In, nodup_In. reflexivity.
Qed.

Lemma group_keys_NoDup (keys : list Column) (df : list Row) :
  NoDup (sort_keys (nodup Key_eq_dec (map (key_of keys) df))).
Proof.
  unfold sort_keys. apply sort_by_NoDup, NoDup_nodup.
Qed.

(** The keys of the result are the distinct keys of the frame, sorted. *)
Lemma groupby_keys (keys : list Column) (df : list Row) :
  map (key_of keys) (groupby_sum keys df)
  = sort_keys (nodup Key_eq_dec (map (key_of keys) df)).
Proof.
  unfold groupby_sum. rewrite map_map.
  rewrite <- (map_id (sort_keys _)) at 2.
  apply map_ext_in. intros k Hk.
  apply key_of_group_row. apply group_keys_In. exact Hk.
Qed.

Lemma groupby_NoDup (keys : list Column) (df : list Row) :
  NoDup (map (key_of keys) (groupby_sum keys df)).
Proof. rewrite groupby_keys. apply group_keys_NoDup. Qed.

Lemma groupby_In (keys : list Column) (df : list Row) (p : Row) :
  In p (groupby_sum keys df) ->
  exists r g,
    p = sum_group keys (r :: g)
    /\ group keys (key_of keys r) df = r :: g
    /\ In r df.
Proof.
  unfold groupby_sum. intro H. apply in_map_iff in H.
  destruct H as (k & <- & Hk). apply group_keys_In in Hk.
  destruct (group_nonempty keys k df Hk) as (r & g & E & Hr & <-).
  exists r, g. rewrite E. auto.
Qed.

Lemma groupby_intro (keys : list Column) (df : list Row) (r : Row) :
  In r df ->
  exists p, In p (groupby_sum keys df) /\ key_of keys p = key_of keys r.
Proof.
  intro Hr.
  assert (Hk : In (key_of keys r) (map (key_of keys) df))
    by (apply in_map; exact Hr).
  exists (sum_group keys (group keys (key_of keys r) df)). split.
  - unfold groupby_sum.
    apply (in_map (fun k => sum_group keys (group keys k df))).
    apply group_keys_In. exact Hk.
  - apply key_of_group_row. exact Hk.
Qed.

(** A row of the result carries the sum of its group, as 64-bit
    addition gives it. *)
Lemma groupby_total (keys : list Column) (df : list Row) (p : Row) :
  In p (groupby_sum keys df) ->
  total_sales p
  = int64_wrap
      (total_where (fun r => Key_eqb (key_of keys r) (key_of keys p)) df).
Proof.
  intro H. destruct (groupby_In keys df p H) as (r & g & -> & E & _).
  change (total_sales (sum_group keys (r :: g)))
    with (sum_int64 (map total_sales (r :: g))).
  rewrite sum_int64_wrap, key_of_sum_group. unfold total_where.
  fold (group keys (key_of keys r) df). rewrite E. reflexivity.
Qed.

Lemma groupby_int64 (keys : list Column) (df : list Row) (p : Row) :
  In p (groupby_sum keys df) -> int64 (total_sales p).
Proof.
  intro H. rewrite (groupby_total keys df p H). apply int64_wrap_range.
Qed.

(** A selection that only looks at key columns sums to the same total,
    modulo [2^64], before and after grouping. *)
Lemma groupby_total_where (keys : list Column) (Q : Row -> bool)
    (df : list Row) :
  respects keys Q ->
  int64_wrap (total_where Q (groupby_sum keys df))
  = int64_wrap (total_where Q df).
Proof.
  intro HQ. unfold total_where at 1, groupby_sum.
  rewrite sum_Z_filter, map_map.
  rewrite (int64_wrap_sum_ext _
    (fun k => sum_Z (map (fun r => if Q r then total_sales r else 0)
                         (group keys k df)))).
  - rewrite sum_over_groups.
    + unfold total_where. rewrite sum_Z_filter. reflexivity.
    + apply group_keys_NoDup.
    + intros r Hr. apply group_keys_In, in_map, Hr.
  - intros k Hk. apply group_keys_In in Hk.
    destruct (group_nonempty keys k df Hk) as (r & g & E & _ & Hkr).
    rewrite E.
    assert (Hall : forall q, In q (r :: g) ->
                     Q q = Q (sum_group keys (r :: g))).
    { intros q Hq. apply HQ. rewrite key_of_sum_group, Hkr.
      rewrite <- E in Hq. apply group_In in Hq. apply Hq. }
    destruct (Q (sum_group keys (r :: g))) eqn:EQ.
    + change (total_sales (sum_group keys (r :: g)))
        with (sum_int64 (map total_sales (r :: g))).
      rewrite sum_int64_wrap, int64_wrap_idem. f_equal.
      apply sum_Z_map_ext_in.
      intros q Hq. rewrite (Hall q Hq). reflexivity.
    + f_equal. rewrite (sum_Z_map_ext_in _ (fun _ => 0)).
      * symmetry. apply sum_Z_map_zero.
      * intros q Hq. rewrite (Hall q Hq). reflexivity.
Qed.

Lemma groupby_exists (keys : list Column) (Q : Row -> bool)
    (df : list Row) :
  respects keys Q ->
  (exists p, In p (groupby_sum keys df) /\ Q p = true)
  <-> (exists r, In r df /\ Q r = true).
Proof.
  intro HQ. split.
  - intros (p & Hp & Hq).
    destruct (groupby_In keys df p Hp) as (r & g & -> & _ & Hr).
    exists r. split; [exact Hr|].
    rewrite <- Hq. apply HQ. symmetry. apply key_of_sum_group.
  - intros (r & Hr & Hq).
    destruct (groupby_intro keys df r Hr) as (p & Hp & Hk).
    exists p. split; [exact Hp|].
    rewrite <- Hq. apply HQ. exact Hk.
Qed.

Lemma groupby_nil (keys : list Column) : groupby_sum keys [] = [].
Proof. reflexivity. Qed.

(* ================================================================== *)
(** ** Selections and the steps of the function *)

Lemma key_of_get (keys : list Column) (c : Column) (r r' : Row) :
  In c keys -> key_of keys r = key_of keys r' -> get c r = get c r'.
Proof.
  unfold key_of. induction keys as [|k keys IH]; simpl; [contradiction|].
  intros [->|Hc] E; injection E as E1 E2; auto.
Qed.

Lemma respects_get (keys : list Column) (c : Column) (v : string) :
  In c keys -> respects keys (fun r => String.eqb (get c r) v).
Proof.
  intros Hc r r' E. rewrite (key_of_get keys c r r' Hc E). reflexivity.
Qed.

Lemma respects_named (keys : list Column) (n : string) :
  In productname_col keys -> respects keys (named n).
Proof. intro H. exact (respects_get keys productname_col n H). Qed.

Lemma respects_and (keys : list Column) (P Q : Row -> bool) :
  respects keys P -> respects keys Q ->
  respects keys (fun r => P r && Q r).
Proof.
  intros HP HQ r r' E. rewrite (HP r r' E), (HQ r r' E). reflexivity.
Qed.

Lemma respects_or_const (keys : list Column) (b : bool) (Q : Row -> bool) :
  respects keys Q -> respects keys (fun r => b || Q r).
Proof.
  intros HQ r r' E. rewrite (HQ r r' E). reflexivity.
Qed.

Lemma total_where_ext (P Q : Row -> bool) (df : list Row) :
  (forall r, P r = Q r) -> total_where P df = total_where Q df.
Proof.
  intro H. unfold total_where. rewrite (filter_ext P Q H). reflexivity.
Qed.

Lemma total_where_filter (P Q : Row -> bool) (df : list Row) :
  total_where Q (filter P df) = total_where (fun r => Q r && P r) df.
Proof.
  unfold total_where. induction df as [|r df IH]; simpl; [reflexivity|].
  destruct (P r); simpl; destruct (Q r); simpl; rewrite IH; reflexivity.
Qed.

Lemma exists_filter (P Q : Row -> bool) (df : list Row) :
  (exists p, In p (filter P df) /\ Q p = true)
  <-> (exists r, In r df /\ Q r && P r = true).
Proof.
  split; intros (r & Hr & Hq); exists r.
  - apply filter_In in Hr. destruct Hr as [Hr HP].
    rewrite Hq, HP. auto.
  - apply andb_true_iff in Hq. rewrite filter_In. tauto.
Qed.

Lemma exists_ext (P Q : Row -> bool) (df : list Row) :
  (forall r, P r = Q r) ->
  (exists r, In r df /\ P r = true) <-> (exists r, In r df /\ Q r = true).
Proof.
  intro H. split; intros (r & Hr & Hq); exists r; split; try exact Hr.
  - rewrite <- H. exact Hq.
  - rewrite H. exact Hq.
Qed.

(** The statements of [filter_and_aggregate] are the steps, one after the
    other. *)
Lemma aggregated_steps (df : list SalesRow) (s e : option date)
    (c pl : string) (n : Z) :
  aggregated df s e c pl n
  = country_step c
      (productline_step pl (groupby_sum all_keys (date_step s e df))).
Proof.
  unfold aggregated, filter_and_aggregate, country_step, productline_step,
    date_step, all_keys.
  destruct (String.eqb pl "ALL"), (String.eqb c "ALL"); reflexivity.
Qed.

Lemma country_step_total (c n : string) (df : list Row) :
  int64_wrap (total_where (named n) (country_step c df))
  = int64_wrap
      (total_where
         (fun r => named n r
                   && (String.eqb c "ALL" || String.eqb (country r) c)) df).
Proof.
  unfold country_step. destruct (String.eqb c "ALL"); simpl.
  - rewrite groupby_total_where
      by (apply respects_named; left; reflexivity).
    f_equal. apply total_where_ext. intro r. rewrite andb_true_r.
    reflexivity.
  - unfold where_eq. rewrite total_where_filter. reflexivity.
Qed.

Lemma productline_step_total (pl : string) (Q : Row -> bool)
    (df : list Row) :
  respects [productname_col; country_col] Q ->
  int64_wrap (total_where Q (productline_step pl df))
  = int64_wrap
      (total_where
         (fun r => Q r
                   && (String.eqb pl "ALL" || String.eqb (productline r) pl))
         df).
Proof.
  intro HQ. unfold productline_step. destruct (String.eqb pl "ALL"); simpl.
  - rewrite groupby_total_where by exact HQ.
    f_equal. apply total_where_ext. intro r. rewrite andb_true_r.
    reflexivity.
  - unfold where_eq. rewrite total_where_filter. reflexivity.
Qed.

Lemma country_step_exists (c n : string) (df : list Row) :
  (exists p, In p (country_step c df) /\ named n p = true)
  <-> (exists r, In r df
                 /\ named n r
                    && (String.eqb c "ALL" || String.eqb (country r) c)
                    = true).
Proof.
  unfold country_step. destruct (String.eqb c "ALL"); simpl.
  - rewrite groupby_exists by (apply respects_named; left; reflexivity).
    apply exists_ext. intro r. rewrite andb_true_r. reflexivity.
  - unfold where_eq. apply exists_filter.
Qed.

Lemma productline_step_exists (pl : string) (Q : Row -> bool)
    (df : list Row) :
  respects [productname_col; country_col] Q ->
  (exists p, In p (productline_step pl df) /\ Q p = true)
  <-> (exists r, In r df
                 /\ Q r
                    && (String.eqb pl "ALL" || String.eqb (productline r) pl)
                    = true).
Proof.
  intro HQ. unfold productline_step. destruct (String.eqb pl "ALL"); simpl.
  - rewrite groupby_exists by exact HQ.
    apply exists_ext. intro r. rewrite andb_true_r. reflexivity.
  - unfold where_eq. apply exists_filter.
Qed.

Lemma respects_named_country (c n : string) :
  respects [productname_col; country_col]
    (fun r => named n r
              && (String.eqb c "ALL" || String.eqb (country r) c)).
Proof.
  apply respects_and.
  - apply respects_named. left. reflexivity.
  - apply respects_or_const.
    apply (respects_get _ country_col). right. left. reflexivity.
Qed.

Lemma respects_named_selected (c pl n : string) :
  respects all_keys
    (fun r => named n r
              && (String.eqb c "ALL" || String.eqb (country r) c)
              && (String.eqb pl "ALL" || String.eqb (productline r) pl)).
Proof.
  apply respects_and; [apply respects_and|].
  - apply respects_named. right. left. reflexivity.
  - apply respects_or_const.
    apply (respects_get _ country_col). right. right. left. reflexivity.
  - apply respects_or_const.
    apply (respects_get _ productline_col). left. reflexivity.
Qed.

Lemma selected_named_eq (c pl n : string) (r : Row) :
  named n r
  && (String.eqb c "ALL" || String.eqb (country r) c)
  && (String.eqb pl "ALL" || String.eqb (productline r) pl)
  = selected c pl r && named n r.
Proof.
  unfold selected.
  destruct (named n r), (String.eqb c "ALL"), (String.eqb (country r) c),
    (String.eqb pl "ALL"), (String.eqb (productline r) pl); reflexivity.
Qed.

(** The total carried under a product name, traced back through the
    steps to the rows the date filter kept. *)
Lemma steps_total (c pl n : string) (df : list Row) :
  int64_wrap
    (total_where (named n)
       (country_step c (productline_step pl (groupby_sum all_keys df))))
  = int64_wrap (total_where (fun r => selected c pl r && named n r) df).
Proof.
  rewrite country_step_total.
  rewrite productline_step_total by apply respects_named_country.
  rewrite groupby_total_where by apply respects_named_selected.
  f_equal. apply total_where_ext. intro r. apply selected_named_eq.
Qed.

Lemma steps_exists (c pl n : string) (df : list Row) :
  (exists p,
     In p (country_step c (productline_step pl (groupby_sum all_keys df)))
     /\ named n p = true)
  <-> (exists r, In r df /\ selected c pl r && named n r = true).
Proof.
  rewrite country_step_exists.
  rewrite productline_step_exists by apply respects_named_country.
  rewrite groupby_exists by apply respects_named_selected.
  apply exists_ext. intro r. apply selected_named_eq.
Qed.

(* ================================================================== *)
(** ** One row per product name *)

Lemma NoDup_map_filter {A B : Type} (f : A -> B) (P : A -> bool)
    (l : list A) :
  NoDup (map f l) -> NoDup (map f (filter P l)).
Proof.
  induction l as [|x l IH]; simpl; intro H; [constructor|].
  inversion H as [|? ? Hx Hl]; subst.
  destruct (P x); simpl; [|apply IH; exact Hl].
  constructor; [|apply IH; exact Hl].
  intro Hin. apply Hx. apply in_map_iff in Hin.
  destruct Hin as (y & Hy & Hin). apply filter_In in Hin.
  rewrite <- Hy. apply in_map. apply Hin.
Qed.

Lemma NoDup_map_coarser {A B C : Type} (f : A -> B) (g : A -> C)
    (l : list A) :
  (forall x y, In x l -> In y l -> g x = g y -> f x = f y) ->
  NoDup (map f l) -> NoDup (map g l).
Proof.
  induction l as [|x l IH]; simpl; intros Hfg H; [constructor|].
  inversion H as [|? ? Hx Hl]; subst.
  constructor.
  - intro Hin. apply Hx. apply in_map_iff in Hin.
    destruct Hin as (y & Hy & Hin).
    rewrite (Hfg x y) by auto. apply in_map. exact Hin.
  - apply IH; [|exact Hl]. intros a b Ha Hb. apply Hfg; auto.
Qed.

Lemma where_eq_In (c : Column) (v : string) (df : list Row) (r : Row) :
  In r (where_eq c v df) <-> In r df /\ get c r = v.
Proof.
  unfold where_eq. rewrite filter_In, String.eqb_eq. reflexivity.
Qed.

Lemma country_step_NoDup_ALL (df : list Row) :
  NoDup (map productname (groupby_sum [productname_col] df)).
Proof.
  apply (NoDup_map_coarser (key_of [productname_col])).
  - intros x y _ _ E. unfold key_of. simpl. rewrite E. reflexivity.
  - apply groupby_NoDup.
Qed.

Lemma steps_NoDup (c pl : string) (df : list Row) :
  NoDup (map productname
           (country_step c
              (productline_step pl (groupby_sum all_keys df)))).
Proof.
  unfold country_step.
  destruct (String.eqb c "ALL"); [apply country_step_NoDup_ALL|].
  unfold productline_step. destruct (String.eqb pl "ALL").
  - apply (NoDup_map_coarser (key_of [productname_col; country_col])).
    + intros x y Hx Hy E.
      apply where_eq_In in Hx. apply where_eq_In in Hy.
      destruct Hx as [_ Hx]. destruct Hy as [_ Hy]. simpl in Hx, Hy.
      unfold key_of. simpl. rewrite E, Hx, Hy. reflexivity.
    + unfold where_eq. apply NoDup_map_filter, groupby_NoDup.
  - apply (NoDup_map_coarser (key_of all_keys)).
    + intros x y Hx Hy E.
      apply where_eq_In in Hx. apply where_eq_In in Hy.
      destruct Hx as [Hx Hxc]. destruct Hy as [Hy Hyc].
      apply where_eq_In in Hx. apply where_eq_In in Hy.
      destruct Hx as [_ Hx]. destruct Hy as [_ Hy].
      simpl in Hx, Hy, Hxc, Hyc.
      unfold key_of, all_keys. simpl.
      rewrite E, Hx, Hy, Hxc, Hyc. reflexivity.
    + unfold where_eq. apply NoDup_map_filter, NoDup_map_filter.
      apply groupby_NoDup.
Qed.

Lemma total_where_absent (df : list Row) (n : string) :
  ~ In n (map productname df) -> total_where (named n) df = 0.
Proof.
  unfold total_where, named.
  induction df as [|q df IH]; simpl; intro H; [reflexivity|].
  destruct (String.eqb (productname q) n) eqn:E.
  - apply String.eqb_eq in E. exfalso. apply H. left. exact E.
  - apply IH. intro Hin. apply H. right. exact Hin.
Qed.

(** In a frame with one row per product name, the total under a name is
    the total of its row. *)
Lemma total_where_named (df : list Row) (p : Row) :
  NoDup (map productname df) -> In p df ->
  total_where (named (productname p)) df = total_sales p.
Proof.
  unfold total_where, named.
  induction df as [|q df IH]; simpl; intros Hnd Hin; [contradiction|].
  inversion Hnd as [|? ? Hq Hdf]; subst.
  destruct Hin as [->|Hin].
  - rewrite String.eqb_refl. simpl.
    pose proof (total_where_absent df (productname p) Hq) as H0.
    unfold total_where, named in H0. rewrite H0. lia.
  - destruct (String.eqb (productname q) (productname p)) eqn:E.
    + apply String.eqb_eq in E. exfalso. apply Hq.
      rewrite E. apply in_map. exact Hin.
    + apply IH; assumption.
Qed.

(* ================================================================== *)
(** ** From the frame after the date filter back to [product_sales_df] *)

Lemma date_step_In (s e : option date) (df : list SalesRow) (r : Row) :
  In r (date_step s e df)
  <-> exists x, In x df /\ in_dates s e x = true /\ sales x = r.
Proof.
  unfold date_step, drop_orderdate, between_dates, in_dates.
  rewrite in_map_iff. split.
  - intros (x & Hx & Hin). apply filter_In in Hin. exists x. tauto.
  - intros (x & Hin & Hd & Hx). exists x. rewrite filter_In. tauto.
Qed.

Lemma date_step_total (s e : option date) (Q : Row -> bool)
    (df : list SalesRow) :
  total_where Q (date_step s e df)
  = sales_total (fun x => in_dates s e x && Q (sales x)) df.
Proof.
  unfold total_where, sales_total, date_step, drop_orderdate,
    between_dates, in_dates.
  induction df as [|x df IH]; simpl; [reflexivity|].
  destruct (in_range (pd_Timestamp s) (pd_Timestamp e) x); simpl;
    [destruct (Q (sales x)); simpl; rewrite IH; reflexivity | exact IH].
Qed.

(** *** The frame that reaches the plotting block *)

Lemma aggregated_NoDup (df : list SalesRow) (s e : option date)
    (c pl : string) (n : Z) :
  NoDup (map productname (aggregated df s e c pl n)).
Proof. rewrite aggregated_steps. apply steps_NoDup. Qed.

Lemma steps_int64 (c pl : string) (df : list Row) (p : Row) :
  In p (country_step c (productline_step pl (groupby_sum all_keys df))) ->
  int64 (total_sales p).
Proof.
  unfold country_step, productline_step.
  destruct (String.eqb c "ALL"); [apply groupby_int64|].
  intro H. apply where_eq_In in H. destruct H as [H _]. revert H.
  destruct (String.eqb pl "ALL"); [apply groupby_int64|].
  intro H. apply where_eq_In in H. destruct H as [H _].
  apply (groupby_int64 all_keys df). exact H.
Qed.

Lemma aggregated_int64 (df : list SalesRow) (s e : option date)
    (c pl : string) (n : Z) (p : Row) :
  In p (aggregated df s e c pl n) -> int64 (total_sales p).
Proof. rewrite aggregated_steps. apply steps_int64. Qed.

Lemma column_sum_wrap (Q : SalesRow -> bool) (df : list SalesRow) :
  column_sum Q df = int64_wrap (sales_total Q df).
Proof. unfold column_sum, sales_total. apply sum_int64_wrap. Qed.

Lemma aggregated_total (df : list SalesRow) (s e : option date)
    (c pl : string) (n : Z) (p : Row) :
  In p (aggregated df s e c pl n) ->
  total_sales p
  = int64_wrap
      (sales_total
         (fun x => in_dates s e x
                   && (selected c pl (sales x)
                       && named (productname p) (sales x))) df).
Proof.
  intro Hp.
  rewrite <- (int64_wrap_small _ (aggregated_int64 df s e c pl n p Hp)).
  rewrite <- (total_where_named _ p (aggregated_NoDup df s e c pl n) Hp).
  rewrite aggregated_steps, steps_total. f_equal. apply date_step_total.
Qed.

Lemma aggregated_names (df : list SalesRow) (s e : option date)
    (c pl : string) (n : Z) (name : string) :
  In name (map productname (aggregated df s e c pl n))
  <-> exists x, In x df
                /\ in_dates s e x = true
                /\ selected c pl (sales x) = true
                /\ productname (sales x) = name.
Proof.
  rewrite aggregated_steps, in_map_iff.
  transitivity
    (exists p,
       In p (country_step c
               (productline_step pl
                  (groupby_sum all_keys (date_step s e df))))
       /\ named name p = true).
  { split; intros (p & H1 & H2); exists p.
    - split; [exact H2 | apply String.eqb_eq; exact H1].
    - split; [apply String.eqb_eq; exact H2 | exact H1]. }
  rewrite steps_exists. split.
  - intros (r & Hr & Hq). apply date_step_In in Hr.
    destruct Hr as (x & Hx & Hd & <-).
    apply andb_true_iff in Hq. destruct Hq as [Hs Hn].
    apply String.eqb_eq in Hn. exists x. auto.
  - intros (x & Hx & Hd & Hs & Hn). exists (sales x). split.
    + apply date_step_In. exists x. auto.
    + rewrite Hs. simpl. apply String.eqb_eq. exact Hn.
Qed.

Lemma sales_total_ext_in (P Q : SalesRow -> bool) (df : list SalesRow) :
  (forall r, In r df -> P r = Q r) -> sales_total P df = sales_total Q df.
Proof.
  intro H. unfold sales_total.
  rewrite (filter_ext_in P Q df H). reflexivity.
Qed.

Lemma aggregated_date_filter (df df' : list SalesRow) (s e : option date)
    (c pl : string) (n : Z) :
  between_dates (pd_Timestamp s) (pd_Timestamp e) df'
  = between_dates (pd_Timestamp s) (pd_Timestamp e) df ->
  filter_and_aggregate df' s e c pl n = filter_and_aggregate df s e c pl n.
Proof.
  intro H. unfold filter_and_aggregate. rewrite H. reflexivity.
Qed.

(* ================================================================== *)
(** ** The events of a call *)

Lemma plot_top_n_sales_block (sns : Seaborn) (df : list SalesRow)
    (s e : option date) (c pl : string) (n : Z) :
  plot_top_n_sales sns df s e c pl n
  = plot_block sns (aggregated df s e c pl n)
      (snd (filter_and_aggregate df s e c pl n)) c pl n.
Proof.
  unfold plot_top_n_sales, aggregated.
  destruct (filter_and_aggregate df s e c pl n). reflexivity.
Qed.

Lemma plot_block_Barplot (sns : Seaborn) (fdf : list Row) (title : string)
    (c pl : string) (n : Z) (x y : string) (data : list Row) :
  In (Barplot x y data) (plot_block sns fdf title c pl n) ->
  fdf <> [] /\ data = head n (sort_values fdf).
Proof.
  unfold plot_block. destruct fdf as [|r fdf]; simpl.
  - intros [H|[]]. discriminate H.
  - intros [H|H].
    + injection H as _ _ <-. split; [discriminate | reflexivity].
    + exfalso.
      destruct (barplot_raises sns _); [|destruct (set_raises sns _)];
        simpl in H; intuition discriminate.
Qed.

Lemma plot_top_n_sales_Barplot (sns : Seaborn) (df : list SalesRow)
    (s e : option date) (c pl : string) (n : Z) (x y : string)
    (data : list Row) :
  In (Barplot x y data) (plot_top_n_sales sns df s e c pl n) ->
  aggregated df s e c pl n <> [] /\ data = plot_data df s e c pl n.
Proof.
  rewrite plot_top_n_sales_block. apply plot_block_Barplot.
Qed.

Lemma plot_data_In (df : list SalesRow) (s e : option date)
    (c pl : string) (n : Z) (p : Row) :
  In p (plot_data df s e c pl n) -> In p (aggregated df s e c pl n).
Proof.
  unfold plot_data. fold (aggregated df s e c pl n).
  intro H. apply head_In in H. apply sort_by_In in H. exact H.
Qed.

Lemma plot_data_length (df : list SalesRow) (s e : option date)
    (c pl : string) (n : Z) :
  0 <= n ->
  Z.of_nat (List.length (plot_data df s e c pl n))
  = Z.min n (Z.of_nat (List.length (aggregated df s e c pl n))).
Proof.
  intro Hn. unfold plot_data. fold (aggregated df s e c pl n).
  rewrite head_length by exact Hn.
  unfold sort_values. rewrite sort_by_length. reflexivity.
Qed.

(* ================================================================== *)
(** ** The claims *)

Lemma column_sum_ext_in (P Q : SalesRow -> bool) (df : list SalesRow) :
  (forall r, In r df -> P r = Q r) -> column_sum P df = column_sum Q df.
Proof.
  intro H. rewrite !column_sum_wrap. f_equal.
  apply sales_total_ext_in. exact H.
Qed.

(** C1, as the function has it.  Whatever frame [plot_top_n_sales] hands
    to [sns.barplot], each of its rows carries the sum, as the 64-bit
    column adds it, of [total_sales] over the rows of [product_sales_df]
    whose [orderdate] lies between the two dates, both ends included, and
    that have the row's product name and fall under the dropdown
    selection; it is the exact sum whenever that is a 64-bit integer.
    When the two dates cover the table, that is the sum over all such rows
    of the table; and a table with the same rows between the two dates
    gives the same call.  This holds for every table and every pair of
    dates, so also for a non-empty table. *)
Theorem plot_data_sums_rows_in_range
    (sns : Seaborn) (df : list SalesRow) (s e : option date)
    (c pl : string) (n : Z) (x y : string) (data : list Row) (p : Row) :
  In (Barplot x y data) (plot_top_n_sales sns df s e c pl n) ->
  In p data ->
  total_sales p
  = column_sum
      (fun r => ts_ge (orderdate r) (pd_Timestamp s)
                && ts_le (orderdate r) (pd_Timestamp e)
                && (selected c pl (sales r)
                    && named (productname p) (sales r))) df
  /\ (int64
        (sales_total
           (fun r => ts_ge (orderdate r) (pd_Timestamp s)
                     && ts_le (orderdate r) (pd_Timestamp e)
                     && (selected c pl (sales r)
                         && named (productname p) (sales r))) df) ->
      total_sales p
      = sales_total
          (fun r => ts_ge (orderdate r) (pd_Timestamp s)
                    && ts_le (orderdate r) (pd_Timestamp e)
                    && (selected c pl (sales r)
                        && named (productname p) (sales r))) df)
  /\ ((forall r, In r df ->
         ts_ge (orderdate r) (pd_Timestamp s)
         && ts_le (orderdate r) (pd_Timestamp e) = true) ->
      total_sales p
      = column_sum
          (fun r => selected c pl (sales r)
                    && named (productname p) (sales r)) df)
  /\ (forall df',
        filter (fun r => ts_ge (orderdate r) (pd_Timestamp s)
                         && ts_le (orderdate r) (pd_Timestamp e)) df'
        = filter (fun r => ts_ge (orderdate r) (pd_Timestamp s)
                           && ts_le (orderdate r) (pd_Timestamp e)) df ->
        plot_top_n_sales sns df' s e c pl n
        = plot_top_n_sales sns df s e c pl n).
Proof.
  intros Hev Hp.
  destruct (plot_top_n_sales_Barplot _ _ _ _ _ _ _ _ _ _ Hev) as [_ ->].
  apply plot_data_In in Hp.
  pose proof (aggregated_total _ _ _ _ _ _ _ Hp) as Htot.
  split; [rewrite column_sum_wrap; exact Htot|]. split; [|split].
  - intro Hfit. rewrite Htot. apply int64_wrap_small. exact Hfit.
  - intro Hcover. rewrite Htot, <- column_sum_wrap.
    apply column_sum_ext_in.
    intros r Hr. unfold in_dates, in_range. rewrite (Hcover r Hr).
    reflexivity.
  - intros df' H. unfold plot_top_n_sales.
    rewrite (aggregated_date_filter df df' s e c pl n H). reflexivity.
Qed.

Lemma plot_data_sums_rows_in_range_witness :
  In (Barplot "total_sales" "productname"
        [mkRow "Motorcycles" "P1" "USA" 100])
     (plot_top_n_sales sns_ok example_sales
        (Some (ymd 2024 1 1)) (Some (ymd 2024 1 31)) "ALL" "Motorcycles" 5)
  /\ 100
     = column_sum
         (fun r =>
            ts_ge (orderdate r) (pd_Timestamp (Some (ymd 2024 1 1)))
            && ts_le (orderdate r) (pd_Timestamp (Some (ymd 2024 1 31)))
            && (selected "ALL" "Motorcycles" (sales r)
                && named "P1" (sales r))) example_sales.
Proof.
  assert (H : In (Barplot "total_sales" "productname"
                    [mkRow "Motorcycles" "P1" "USA" 100])
                 (plot_top_n_sales sns_ok example_sales
                    (Some (ymd 2024 1 1)) (Some (ymd 2024 1 31))
                    "ALL" "Motorcycles" 5))
    by (left; reflexivity).
  split; [exact H|].
  exact (proj1 (plot_data_sums_rows_in_range sns_ok example_sales
                  (Some (ymd 2024 1 1)) (Some (ymd 2024 1 31))
                  "ALL" "Motorcycles" 5 _ _ _
                  (mkRow "Motorcycles" "P1" "USA" 100)
                  H (or_introl eq_refl))).
Defined.

(** C1, as worded, fails: two sales of [2^62] each, of one product, are
    plotted as one bar of [-2^63], while the sum of [total_sales] over the
    two rows is [2^63]. *)
Lemma plotted_total_wraps_around :
  plot_top_n_sales sns_ok overflowing_sales
    (Some (ymd 2024 1 1)) (Some (ymd 2024 1 31)) "ALL" "ALL" 5
  = [ Barplot "total_sales" "productname"
        [mkRow "Motorcycles" "P1" "USA" (-9223372036854775808)];
      AxSet "Total Sales" "Product Name" "Top 5 Popular Products" ]
  /\ sales_total
       (fun r =>
          ts_ge (orderdate r) (pd_Timestamp (Some (ymd 2024 1 1)))
          && ts_le (orderdate r) (pd_Timestamp (Some (ymd 2024 1 31)))
          && (selected "ALL" "ALL" (sales r) && named "P1" (sales r)))
       overflowing_sales
     = 9223372036854775808
  /\ total_sales (mkRow "Motorcycles" "P1" "USA" (-9223372036854775808))
     <> sales_total
          (fun r =>
             ts_ge (orderdate r) (pd_Timestamp (Some (ymd 2024 1 1)))
             && ts_le (orderdate r) (pd_Timestamp (Some (ymd 2024 1 31)))
             && (selected "ALL" "ALL" (sales r) && named "P1" (sales r)))
          overflowing_sales.
Proof.
  split; [vm_compute; reflexivity|].
  split; [vm_compute; reflexivity|].
  vm_compute. discriminate.
Qed.

Lemma sales_total_ext (P Q : SalesRow -> bool) (df : list SalesRow) :
  (forall r, P r = Q r) -> sales_total P df = sales_total Q df.
Proof.
  intro H. unfold sales_total. rewrite (filter_ext P Q H). reflexivity.
Qed.

Lemma selected_ALL_productline (c : string) (r : Row) :
  selected c "ALL" r = (String.eqb c "ALL" || String.eqb (country r) c).
Proof. reflexivity. Qed.

Lemma selected_ALL_country (pl : string) (r : Row) :
  selected "ALL" pl r
  = (String.eqb pl "ALL" || String.eqb (productline r) pl).
Proof. unfold selected. simpl. apply andb_true_r. Qed.

(** C2. With [productline="ALL"] the product-line key is left out of the
    grouping and [total_sales] summed again: for the chosen country there
    is one row per product name sold to it between the two dates, whatever
    the product line, and the row carries the column's sum over all those
    sales.  With [country="ALL"] the country key is left out likewise:
    one row per product name sold under the chosen product line, carrying
    the sum over every country.  With both, there is one row per product
    name sold between the two dates, carrying the sum over all product
    lines and countries. *)
Theorem ALL_aggregates_across_the_column
    (df : list SalesRow) (s e : option date) (n : Z) :
  (forall c,
     aggregated df s e c "ALL" n
     = country_step c
         (groupby_sum [productname_col; country_col]
            (groupby_sum [productline_col; productname_col; country_col]
               (date_step s e df)))
     /\ NoDup (map productname (aggregated df s e c "ALL" n))
     /\ (forall name,
           In name (map productname (aggregated df s e c "ALL" n))
           <-> exists r, In r df /\ in_dates s e r = true
                         /\ (String.eqb c "ALL"
                             || String.eqb (country (sales r)) c) = true
                         /\ productname (sales r) = name)
     /\ forall p, In p (aggregated df s e c "ALL" n) ->
          total_sales p
          = column_sum
              (fun r => in_dates s e r
                        && ((String.eqb c "ALL"
                             || String.eqb (country (sales r)) c)
                            && named (productname p) (sales r))) df)
  /\ (forall pl,
        aggregated df s e "ALL" pl n
        = groupby_sum [productname_col]
            (productline_step pl
               (groupby_sum [productline_col; productname_col; country_col]
                  (date_step s e df)))
        /\ NoDup (map productname (aggregated df s e "ALL" pl n))
        /\ (forall name,
              In name (map productname (aggregated df s e "ALL" pl n))
              <-> exists r, In r df /\ in_dates s e r = true
                            /\ (String.eqb pl "ALL"
                                || String.eqb (productline (sales r)) pl)
                               = true
                            /\ productname (sales r) = name)
        /\ forall p, In p (aggregated df s e "ALL" pl n) ->
             total_sales p
             = column_sum
                 (fun r => in_dates s e r
                           && ((String.eqb pl "ALL"
                                || String.eqb (productline (sales r)) pl)
                               && named (productname p) (sales r))) df)
  /\ (NoDup (map productname (aggregated df s e "ALL" "ALL" n))
      /\ (forall name,
            In name (map productname (aggregated df s e "ALL" "ALL" n))
            <-> exists r, In r df /\ in_dates s e r = true
                          /\ productname (sales r) = name)
      /\ forall p, In p (aggregated df s e "ALL" "ALL" n) ->
           total_sales p
           = column_sum
               (fun r => in_dates s e r && named (productname p) (sales r))
               df).
Proof.
  split; [|split].
  - intro c. split; [rewrite aggregated_steps; reflexivity|].
    split; [apply aggregated_NoDup|]. split.
    + intro name. exact (aggregated_names df s e c "ALL" n name).
    + intros p Hp.
      rewrite (aggregated_total _ _ _ _ _ _ _ Hp), column_sum_wrap.
      reflexivity.
  - intro pl. split; [rewrite aggregated_steps; reflexivity|].
    split; [apply aggregated_NoDup|]. split.
    + intro name. rewrite aggregated_names.
      split; intros (r & Hr & Hd & Hs & Hn); exists r;
        [rewrite selected_ALL_country in Hs
        |rewrite selected_ALL_country]; auto.
    + intros p Hp.
      rewrite (aggregated_total _ _ _ _ _ _ _ Hp), column_sum_wrap.
      f_equal. apply sales_total_ext. intro r.
      rewrite selected_ALL_country. reflexivity.
  - split; [apply aggregated_NoDup|]. split.
    + intro name. rewrite aggregated_names.
      split; intros (r & Hr & H); exists r; tauto.
    + intros p Hp.
      rewrite (aggregated_total _ _ _ _ _ _ _ Hp), column_sum_wrap.
      reflexivity.
Qed.

Lemma ALL_aggregates_across_the_column_witness :
  In "P1"
     (map productname
          (aggregated two_lines_sales (Some (ymd 2024 1 1))
                      (Some (ymd 2024 1 31)) "USA" "ALL" 5))
  /\ bars (aggregated two_lines_sales (Some (ymd 2024 1 1))
                      (Some (ymd 2024 1 31)) "USA" "ALL" 5)
     = [("P1", 150)]
  /\ bars (aggregated two_lines_sales (Some (ymd 2024 1 1))
                      (Some (ymd 2024 1 31)) "ALL" "Motorcycles" 5)
     = [("P1", 107)].
Proof.
  split; [|split; reflexivity].
  apply (proj1 (proj2 (proj2 (proj1
           (ALL_aggregates_across_the_column two_lines_sales
              (Some (ymd 2024 1 1)) (Some (ymd 2024 1 31)) 5) "USA")))).
  exists (mkSales (pd_Timestamp (Some (ymd 2024 1 5)))
                  (mkRow "Classic Cars" "P1" "USA" 50)).
  repeat split. right. left. reflexivity.
Defined.

(** C3. For [top_n] from 1 to 10, the frame handed to [sns.barplot] has
    [min(top_n, d)] rows, where [d] is the number of distinct product names
    of the frame that reached the plotting block; so never more than
    [top_n]. *)
Theorem plotted_rows_are_min_top_n_names
    (sns : Seaborn) (df : list SalesRow) (s e : option date)
    (c pl : string) (n : Z) (x y : string) (data : list Row) :
  1 <= n <= 10 ->
  In (Barplot x y data) (plot_top_n_sales sns df s e c pl n) ->
  Z.of_nat (List.length data)
  = Z.min n
      (Z.of_nat
         (List.length
            (nodup string_dec
               (map productname (aggregated df s e c pl n)))))
  /\ Z.of_nat (List.length data) <= n.
Proof.
  intros Hn Hev.
  destruct (plot_top_n_sales_Barplot _ _ _ _ _ _ _ _ _ _ Hev) as [_ ->].
  rewrite (nodup_fixed_point string_dec (aggregated_NoDup df s e c pl n)).
  rewrite length_map, plot_data_length by lia.
  split; lia.
Qed.

Lemma plotted_rows_are_min_top_n_names_witness :
  1 <= 1 <= 10
  /\ Z.of_nat
       (List.length
          [mkRow "MotorcyclesMotorcycles" "P1" "FranceUSA" 150])
     <= 1.
Proof.
  split; [lia|].
  refine (proj2 (plotted_rows_are_min_top_n_names sns_ok example_sales
                   (Some (ymd 2024 1 1)) (Some (ymd 2024 2 1))
                   "ALL" "ALL" 1 "total_sales" "productname"
                   [mkRow "MotorcyclesMotorcycles" "P1" "FranceUSA" 150]
                   _ _)).
  - lia.
  - left. reflexivity.
Defined.

(** C4. On the two example rows, with the dates 2024-01-01 to 2024-01-31,
    [country="ALL"], [productline="Motorcycles"] and [top_n=5], the frame
    that reaches the plotting block has the single row P1 with total 100,
    and that row is what is plotted. *)
Theorem example_gives_single_row_P1_100 :
  map (fun r => (productname r, total_sales r))
      (aggregated
         [ mkSales (pd_Timestamp (Some (ymd 2024 1 1)))
                   (mkRow "Motorcycles" "P1" "USA" 100);
           mkSales (pd_Timestamp (Some (ymd 2024 2 1)))
                   (mkRow "Motorcycles" "P1" "France" 50) ]
         (Some (ymd 2024 1 1)) (Some (ymd 2024 1 31))
         "ALL" "Motorcycles" 5)
  = [("P1", 100)]
  /\ plot_top_n_sales sns_ok
       [ mkSales (pd_Timestamp (Some (ymd 2024 1 1)))
                 (mkRow "Motorcycles" "P1" "USA" 100);
         mkSales (pd_Timestamp (Some (ymd 2024 2 1)))
                 (mkRow "Motorcycles" "P1" "France" 50) ]
       (Some (ymd 2024 1 1)) (Some (ymd 2024 1 31))
       "ALL" "Motorcycles" 5
     = [ Barplot "total_sales" "productname"
           [mkRow "Motorcycles" "P1" "USA" 100];
         AxSet "Total Sales" "Product Name" "Top 5 Popular Motorcycles" ].
Proof.
  split.
  - vm_compute. reflexivity.
  - vm_compute. reflexivity.
Qed.

(* ================================================================== *)
(** ** Running the function over the store *)

Lemma top_frame (h : list Frame) (f : Frame) :
  nth_error (h ++ [f]) (List.length h) = Some f.
Proof.
  rewrite nth_error_app2 by apply Nat.le_refl.
  rewrite Nat.sub_diag. reflexivity.
Qed.

Lemma bind_run {A B : Type} (m : M A) (k : A -> M B) (st st' : Store)
    (a : A) :
  m st = Some (a, st') -> bind m k st = k a st'.
Proof. intro H. unfold bind. rewrite H. reflexivity. Qed.

Lemma st_between_dates_run (lo hi : Timestamp) (h : list Frame) (g : ref)
    (o : list Event) (rows : list SalesRow) :
  nth_error h g = Some (SalesFrame rows) ->
  st_between_dates lo hi g (mkStore h g o)
  = Some (List.length h,
          mkStore (h ++ [SalesFrame (between_dates lo hi rows)]) g o).
Proof.
  intro H. unfold st_between_dates, bind, sales_rows, alloc. simpl.
  rewrite H. reflexivity.
Qed.

Lemma st_drop_orderdate_run (h : list Frame) (g : ref) (o : list Event)
    (rows : list SalesRow) :
  st_drop_orderdate (List.length h) (mkStore (h ++ [SalesFrame rows]) g o)
  = Some (List.length (h ++ [SalesFrame rows]),
          mkStore ((h ++ [SalesFrame rows])
                   ++ [RowFrame (drop_orderdate rows)]) g o).
Proof.
  unfold st_drop_orderdate, bind, sales_rows, alloc. simpl.
  rewrite top_frame. reflexivity.
Qed.

(** A pandas call on the frame allocated last allocates its result. *)
Lemma on_top_run (f : list Row -> list Row) (h : list Frame) (g : ref)
    (o : list Event) (rows : list Row) :
  (rows' <- frame_rows (List.length h) ;; alloc (RowFrame (f rows')))
    (mkStore (h ++ [RowFrame rows]) g o)
  = Some (List.length (h ++ [RowFrame rows]),
          mkStore ((h ++ [RowFrame rows]) ++ [RowFrame (f rows)]) g o).
Proof.
  unfold bind, frame_rows, alloc. simpl.
  rewrite top_frame. reflexivity.
Qed.

Lemma st_groupby_sum_run (keys : list Column) (h : list Frame) (g : ref)
    (o : list Event) (rows : list Row) :
  st_groupby_sum keys (List.length h) (mkStore (h ++ [RowFrame rows]) g o)
  = Some (List.length (h ++ [RowFrame rows]),
          mkStore ((h ++ [RowFrame rows])
                   ++ [RowFrame (groupby_sum keys rows)]) g o).
Proof. apply (on_top_run (groupby_sum keys)). Qed.

Lemma st_where_eq_run (c : Column) (v : string) (h : list Frame) (g : ref)
    (o : list Event) (rows : list Row) :
  st_where_eq c v (List.length h) (mkStore (h ++ [RowFrame rows]) g o)
  = Some (List.length (h ++ [RowFrame rows]),
          mkStore ((h ++ [RowFrame rows])
                   ++ [RowFrame (where_eq c v rows)]) g o).
Proof. apply (on_top_run (where_eq c v)). Qed.

Lemma st_sort_values_run (h : list Frame) (g : ref) (o : list Event)
    (rows : list Row) :
  st_sort_values (List.length h) (mkStore (h ++ [RowFrame rows]) g o)
  = Some (List.length (h ++ [RowFrame rows]),
          mkStore ((h ++ [RowFrame rows])
                   ++ [RowFrame (sort_values rows)]) g o).
Proof. apply (on_top_run sort_values). Qed.

Lemma st_head_run (n : Z) (h : list Frame) (g : ref) (o : list Event)
    (rows : list Row) :
  st_head n (List.length h) (mkStore (h ++ [RowFrame rows]) g o)
  = Some (List.length (h ++ [RowFrame rows]),
          mkStore ((h ++ [RowFrame rows]) ++ [RowFrame (head n rows)]) g o).
Proof. apply (on_top_run (head n)). Qed.

Lemma st_empty_run (h : list Frame) (g : ref) (o : list Event)
    (rows : list Row) :
  st_empty (List.length h) (mkStore (h ++ [RowFrame rows]) g o)
  = Some (empty rows, mkStore (h ++ [RowFrame rows]) g o).
Proof.
  unfold st_empty, bind, frame_rows, ret. simpl.
  rewrite top_frame. reflexivity.
Qed.

Lemma st_barplot_run (sns : Seaborn) (x y : string) (h : list Frame)
    (g : ref) (o : list Event) (rows : list Row) :
  st_barplot sns x y (List.length h) (mkStore (h ++ [RowFrame rows]) g o)
  = Some (negb (barplot_raises sns rows),
          mkStore (h ++ [RowFrame rows]) g (o ++ [Barplot x y rows])).
Proof.
  unfold st_barplot, bind, frame_rows, emit, ret. simpl.
  rewrite top_frame. reflexivity.
Qed.

(** The first part leaves [filtered_df] as the frame allocated last. *)
Lemma filter_and_aggregate_st_run (s e : option date) (c pl : string)
    (n : Z) (h : list Frame) (g : ref) (o : list Event)
    (T : list SalesRow) :
  nth_error h g = Some (SalesFrame T) ->
  exists fresh,
    filter_and_aggregate_st s e c pl n (mkStore h g o)
    = Some ((List.length (h ++ fresh),
             snd (filter_and_aggregate T s e c pl n)),
            mkStore ((h ++ fresh)
                     ++ [RowFrame (fst (filter_and_aggregate T s e c pl n))])
                    g o).
Proof.
  intro H. unfold filter_and_aggregate_st, filter_and_aggregate.
  rewrite (bind_run _ _ _ (mkStore h g o) g) by reflexivity.
  erewrite bind_run by (apply st_between_dates_run; exact H).
  erewrite bind_run by apply st_drop_orderdate_run.
  erewrite bind_run by apply st_groupby_sum_run.
  destruct (String.eqb pl "ALL"), (String.eqb c "ALL"); cbn [negb];
    (erewrite bind_run
       by (erewrite bind_run
             by first [apply st_groupby_sum_run | apply st_where_eq_run];
           reflexivity));
    cbv beta iota;
    (erewrite bind_run
       by first [apply st_groupby_sum_run | apply st_where_eq_run]);
    unfold ret; simpl fst; simpl snd;
    eexists [_; _; _; _];
    rewrite <- !app_assoc; reflexivity.
Qed.

Lemma st_ax_set_run (sns : Seaborn) (xl yl t : string) (st : Store) :
  st_ax_set sns xl yl t st
  = Some (negb (set_raises sns t),
          mkStore (heap st) (product_sales_df st)
                  (stdout st ++ [AxSet xl yl t])).
Proof. reflexivity. Qed.

(** The plotting block reads [filtered_df], allocates the frames it sorts
    and cuts, and adds to the output what [plot_block] says. *)
Lemma plot_block_st_run (sns : Seaborn) (title c pl : string) (n : Z)
    (h : list Frame) (g : ref) (o : list Event) (fdf : list Row) :
  exists fresh,
    plot_block_st sns (List.length h) title c pl n
                  (mkStore (h ++ [RowFrame fdf]) g o)
    = Some (tt,
            mkStore ((h ++ [RowFrame fdf]) ++ fresh) g
                    (o ++ plot_block sns fdf title c pl n)).
Proof.
  unfold plot_block_st, plot_block.
  erewrite bind_run by apply st_empty_run.
  cbv beta.
  destruct (empty fdf); cbn [negb].
  - exists []. unfold emit. simpl. rewrite app_nil_r. reflexivity.
  - erewrite bind_run by apply st_sort_values_run.
    erewrite bind_run by apply st_head_run.
    erewrite bind_run by apply st_barplot_run.
    cbv beta.
    exists [RowFrame (sort_values fdf);
            RowFrame (head n (sort_values fdf))].
    destruct (barplot_raises sns (head n (sort_values fdf)));
      cbn [negb].
    + unfold emit. simpl. rewrite <- !app_assoc. reflexivity.
    + erewrite bind_run by apply st_ax_set_run.
      cbv beta.
      destruct (set_raises sns title); cbn [negb];
        unfold emit, ret; simpl; rewrite <- !app_assoc; reflexivity.
Qed.

(** A call returns; it leaves the global name and every frame that was
    there in place, allocates new frames after them, and adds to the
    output the events [plot_top_n_sales] computes from the frame the
    global name is bound to. *)
Lemma plot_top_n_sales_st_run (sns : Seaborn) (s e : option date)
    (c pl : string) (n : Z) (st : Store) (T : list SalesRow) :
  nth_error (heap st) (product_sales_df st) = Some (SalesFrame T) ->
  exists fresh,
    plot_top_n_sales_st sns s e c pl n st
    = Some (tt,
            mkStore (heap st ++ fresh) (product_sales_df st)
                    (stdout st ++ plot_top_n_sales sns T s e c pl n)).
Proof.
  destruct st as [h g o]. simpl. intro H.
  destruct (filter_and_aggregate_st_run s e c pl n h g o T H)
    as (fresh1 & E1).
  unfold plot_top_n_sales_st, plot_top_n_sales.
  rewrite (bind_run _ _ _ _ _ E1). cbv beta iota.
  destruct (filter_and_aggregate T s e c pl n) as [fdf title]. simpl.
  destruct (plot_block_st_run sns title c pl n (h ++ fresh1) g o fdf)
    as (fresh2 & E2).
  rewrite E2. exists (fresh1 ++ [RowFrame fdf] ++ fresh2).
  rewrite <- !app_assoc. reflexivity.
Qed.

Lemma nth_error_extend {A : Type} (l l' : list A) (i : nat) (x : A) :
  nth_error l i = Some x -> nth_error (l ++ l') i = Some x.
Proof.
  intro H. rewrite nth_error_app1; [exact H|].
  apply nth_error_Some. rewrite H. discriminate.
Qed.

(* ================================================================== *)
(** ** The order of the steps *)

Lemma head_firstn (n : Z) (df : list Row) :
  exists k, head n df = firstn k df.
Proof.
  unfold head. destruct (0 <=? n); eexists; reflexivity.
Qed.

Lemma descending_firstn (k : nat) (df : list Row) :
  descending df -> descending (firstn k df).
Proof.
  unfold descending. revert df.
  induction k as [|k IH]; intros df H; simpl; [constructor|].
  destruct df as [|r df]; [constructor|].
  inversion H as [|? ? Hdf Hr]; subst.
  constructor; [apply IH; exact Hdf|].
  rewrite Forall_forall in Hr |- *.
  intros z Hz. apply Hr. apply (In_firstn k). exact Hz.
Qed.

Lemma descending_app (l1 l2 : list Row) (p q : Row) :
  descending (l1 ++ l2) -> In p l1 -> In q l2 ->
  total_sales q <= total_sales p.
Proof.
  unfold descending.
  induction l1 as [|r l1 IH]; simpl; intros H Hp Hq; [contradiction|].
  inversion H as [|? ? Hl Hr]; subst.
  destruct Hp as [->|Hp]; [|apply IH; assumption].
  rewrite Forall_forall in Hr. apply Hr.
  apply in_or_app. right. exact Hq.
Qed.

Lemma plot_data_cascade (df : list SalesRow) (s e : option date)
    (c pl : string) (n : Z) :
  plot_data df s e c pl n = cascade df s e c pl n.
Proof.
  unfold plot_data, cascade. fold (aggregated df s e c pl n).
  rewrite aggregated_steps. reflexivity.
Qed.

(** C5, as the function has it.  The frame that is plotted is obtained by
    these steps in this order: filter by the date range; sum [total_sales]
    per (product line, product name, country); filter by product line, or
    sum per (product name, country) for ["ALL"]; filter by country, or sum
    per product name for ["ALL"]; sort by [total_sales], descending; keep
    the first [top_n] rows.  The rows kept are in descending order and no
    row left out has a larger total than a row kept. *)
Theorem plot_follows_the_cascade
    (sns : Seaborn) (df : list SalesRow) (s e : option date)
    (c pl : string) (n : Z) :
  (forall x y data,
     In (Barplot x y data) (plot_top_n_sales sns df s e c pl n) ->
     data = cascade df s e c pl n)
  /\ descending (cascade df s e c pl n)
  /\ (forall p q,
        In p (cascade df s e c pl n) ->
        In q (aggregated df s e c pl n) ->
        ~ In q (cascade df s e c pl n) ->
        total_sales q <= total_sales p).
Proof.
  rewrite <- plot_data_cascade. repeat split.
  - intros x y data H.
    apply (plot_top_n_sales_Barplot _ _ _ _ _ _ _ _ _ _ H).
  - unfold plot_data.
    destruct (head_firstn n (sort_values
                (fst (filter_and_aggregate df s e c pl n)))) as [k ->].
    apply descending_firstn, sort_values_descending.
  - unfold plot_data. fold (aggregated df s e c pl n).
    destruct (head_firstn n (sort_values (aggregated df s e c pl n)))
      as [k ->].
    intros p q Hp Hq Hnq.
    apply (descending_app (firstn k (sort_values (aggregated df s e c pl n)))
                          (skipn k (sort_values (aggregated df s e c pl n))));
      [rewrite firstn_skipn; apply sort_values_descending | exact Hp |].
    apply (sort_by_In sales_geb) in Hq. fold (sort_values
      (aggregated df s e c pl n)) in Hq.
    rewrite <- (firstn_skipn k) in Hq.
    apply in_app_or in Hq. destruct Hq as [Hq|Hq];
      [contradiction | exact Hq].
Qed.

(** C5, as worded, fails: with the steps of the sentence and no other, two
    sales of one product to one country on two days stay two rows, while
    the function plots one row with their sum. *)
Lemma worded_cascade_misses_the_sum :
  plot_data two_days_sales (Some (ymd 2024 1 1)) (Some (ymd 2024 1 31))
            "USA" "Motorcycles" 5
  = [mkRow "Motorcycles" "P1" "USA" 150]
  /\ cascade_as_worded two_days_sales
       (Some (ymd 2024 1 1)) (Some (ymd 2024 1 31)) "USA" "Motorcycles" 5
     = [mkRow "Motorcycles" "P1" "USA" 100;
        mkRow "Motorcycles" "P1" "USA" 50]
  /\ plot_data two_days_sales (Some (ymd 2024 1 1)) (Some (ymd 2024 1 31))
               "USA" "Motorcycles" 5
     <> cascade_as_worded two_days_sales
          (Some (ymd 2024 1 1)) (Some (ymd 2024 1 31)) "USA" "Motorcycles" 5.
Proof.
  repeat split; try (vm_compute; reflexivity).
  vm_compute. discriminate.
Qed.

(* ================================================================== *)
(** ** Errors and empty results *)

Lemma plot_top_n_sales_returns (sns : Seaborn) (df : list SalesRow)
    (s e : option date) (c pl : string) (n : Z) (st : Store) :
  nth_error (heap st) (product_sales_df st) = Some (SalesFrame df) ->
  exists st',
    plot_top_n_sales_st sns s e c pl n st = Some (tt, st')
    /\ stdout st' = stdout st ++ plot_top_n_sales sns df s e c pl n.
Proof.
  intro H.
  destruct (plot_top_n_sales_st_run sns s e c pl n st df H) as (fresh & E).
  eexists. split; [exact E | reflexivity].
Qed.

(** C6. When the frame that reaches the plotting block is not empty and a
    plotting call raises, the function prints [error] and returns; when the
    frame is empty it makes no plotting call and prints the message that
    names the selected product line and country.  In every case the call
    returns normally. *)
Theorem plotting_errors_and_empty_results
    (sns : Seaborn) (df : list SalesRow) (s e : option date)
    (c pl : string) (n : Z) :
  (aggregated df s e c pl n <> [] ->
   barplot_raises sns (plot_data df s e c pl n) = true ->
   plot_top_n_sales sns df s e c pl n
   = [ Barplot "total_sales" "productname" (plot_data df s e c pl n);
       Print "error" ])
  /\ (aggregated df s e c pl n <> [] ->
      barplot_raises sns (plot_data df s e c pl n) = false ->
      set_raises sns (snd (filter_and_aggregate df s e c pl n)) = true ->
      plot_top_n_sales sns df s e c pl n
      = [ Barplot "total_sales" "productname" (plot_data df s e c pl n);
          AxSet "Total Sales" "Product Name"
                (snd (filter_and_aggregate df s e c pl n));
          Print "error" ])
  /\ (aggregated df s e c pl n = [] ->
      plot_top_n_sales sns df s e c pl n
      = [ Print ("There were no sales of " ++ pl ++ " to " ++ c
                 ++ " during that period")%string ]
      /\ forall x y data,
           ~ In (Barplot x y data) (plot_top_n_sales sns df s e c pl n))
  /\ (forall st,
        nth_error (heap st) (product_sales_df st) = Some (SalesFrame df) ->
        exists st',
          plot_top_n_sales_st sns s e c pl n st = Some (tt, st')
          /\ stdout st'
             = stdout st ++ plot_top_n_sales sns df s e c pl n).
Proof.
  split; [|split; [|split]];
    [| | | intros st H; apply plot_top_n_sales_returns; exact H];
    rewrite plot_top_n_sales_block; unfold plot_data, plot_block;
    fold (aggregated df s e c pl n).
  - intros Hne Hr. destruct (aggregated df s e c pl n); [congruence|].
    simpl. simpl in Hr. rewrite Hr. reflexivity.
  - intros Hne Hr Hs. destruct (aggregated df s e c pl n); [congruence|].
    simpl. simpl in Hr. rewrite Hr, Hs. reflexivity.
  - intro He. rewrite He. simpl. split; [reflexivity|].
    intros x y data [E|[]]. discriminate E.
Qed.

Lemma plotting_errors_and_empty_results_witness :
  plot_top_n_sales sns_failing example_sales
    (Some (ymd 2024 1 1)) (Some (ymd 2024 1 31)) "ALL" "Motorcycles" 5
  = [ Barplot "total_sales" "productname"
        [mkRow "Motorcycles" "P1" "USA" 100];
      Print "error" ]
  /\ plot_top_n_sales sns_failing example_sales
       (Some (ymd 2024 1 1)) (Some (ymd 2024 1 31)) "Japan" "Motorcycles" 5
     = [ Print "There were no sales of Motorcycles to Japan during that period" ].
Proof.
  split.
  - refine (proj1 (plotting_errors_and_empty_results sns_failing
                     example_sales (Some (ymd 2024 1 1))
                     (Some (ymd 2024 1 31)) "ALL" "Motorcycles" 5) _ _).
    + vm_compute. discriminate.
    + reflexivity.
  - refine (proj1 (proj1 (proj2 (proj2
              (plotting_errors_and_empty_results sns_failing
                 example_sales (Some (ymd 2024 1 1))
                 (Some (ymd 2024 1 31)) "Japan" "Motorcycles" 5))) _)).
    vm_compute. reflexivity.
Defined.

(* ================================================================== *)
(** ** The global frame *)

(** C9. A call of the function in a store where [product_sales_df] names a
    sales frame returns, leaves the name bound to the same reference, and
    leaves every frame of the store as it was, the one the name refers to
    among them: the frames of the filtering, column-drop, grouping and
    sorting steps are new.  A call made afterwards, with any selection,
    computes from the same table. *)
Theorem product_sales_df_is_left_unchanged
    (sns : Seaborn) (s e : option date) (c pl : string) (n : Z)
    (st : Store) (T : list SalesRow) :
  nth_error (heap st) (product_sales_df st) = Some (SalesFrame T) ->
  exists st',
    plot_top_n_sales_st sns s e c pl n st = Some (tt, st')
    /\ product_sales_df st' = product_sales_df st
    /\ nth_error (heap st') (product_sales_df st') = Some (SalesFrame T)
    /\ (exists fresh, heap st' = heap st ++ fresh)
    /\ (forall r f, nth_error (heap st) r = Some f ->
                    nth_error (heap st') r = Some f)
    /\ (forall sns2 s2 e2 c2 pl2 n2,
          exists st'',
            plot_top_n_sales_st sns2 s2 e2 c2 pl2 n2 st' = Some (tt, st'')
            /\ stdout st''
               = stdout st' ++ plot_top_n_sales sns2 T s2 e2 c2 pl2 n2).
Proof.
  intro H.
  destruct (plot_top_n_sales_st_run sns s e c pl n st T H) as (fresh & E).
  eexists. split; [exact E|]. simpl.
  assert (H' : nth_error (heap st ++ fresh) (product_sales_df st)
               = Some (SalesFrame T))
    by (apply nth_error_extend; exact H).
  split; [reflexivity|]. split; [exact H'|].
  split; [exists fresh; reflexivity|]. split.
  - intros r f Hr. apply nth_error_extend. exact Hr.
  - intros sns2 s2 e2 c2 pl2 n2.
    apply (plot_top_n_sales_returns sns2 T s2 e2 c2 pl2 n2
             (mkStore (heap st ++ fresh) (product_sales_df st)
                      (stdout st ++ plot_top_n_sales sns T s e c pl n))).
    exact H'.
Qed.

Lemma product_sales_df_is_left_unchanged_witness :
  nth_error (heap (initial_store example_sales))
            (product_sales_df (initial_store example_sales))
  = Some (SalesFrame example_sales)
  /\ exists st',
       plot_top_n_sales_st sns_ok
         (Some (ymd 2024 1 1)) (Some (ymd 2024 1 31)) "ALL" "Motorcycles" 5
         (initial_store example_sales)
       = Some (tt, st')
       /\ nth_error (heap st') (product_sales_df st')
          = Some (SalesFrame example_sales).
Proof.
  split; [reflexivity|].
  destruct (product_sales_df_is_left_unchanged sns_ok
              (Some (ymd 2024 1 1)) (Some (ymd 2024 1 31))
              "ALL" "Motorcycles" 5
              (initial_store example_sales) example_sales eq_refl)
    as (st' & E & _ & Hg & _).
  exists st'. split; [exact E | exact Hg].
Defined.

(* ================================================================== *)
(** ** Date ranges that keep no row *)

Lemma after_keeps_no_row (s e : option date) (r : SalesRow) :
  after s e -> in_dates s e r = false.
Proof.
  unfold after, in_dates, in_range, ts_ge, ts_le, pd_Timestamp.
  destruct s as [a|], e as [b|]; try contradiction.
  intro Hab. destruct (orderdate r) as [|x]; [reflexivity|].
  destruct ((a - epoch_ordinal) * ns_per_day <=? x) eqn:E1;
    [|reflexivity].
  apply Z.leb_le in E1. apply Z.leb_gt.
  unfold ns_per_day in *. lia.
Qed.

Lemma filter_none {A : Type} (f : A -> bool) (l : list A) :
  (forall x, In x l -> f x = false) -> filter f l = [].
Proof.
  induction l as [|x l IH]; simpl; intro H; [reflexivity|].
  rewrite (H x) by (left; reflexivity).
  apply IH. intros y Hy. apply H. right. exact Hy.
Qed.

Lemma no_row_in_range_aggregated (df : list SalesRow) (s e : option date)
    (c pl : string) (n : Z) :
  (forall r, In r df -> in_dates s e r = false) ->
  aggregated df s e c pl n = [].
Proof.
  intro H. rewrite aggregated_steps.
  unfold date_step, between_dates. unfold in_dates in H.
  rewrite (filter_none _ df H). simpl. rewrite groupby_nil.
  unfold country_step, productline_step.
  destruct (String.eqb pl "ALL"), (String.eqb c "ALL"); reflexivity.
Qed.

(** C10. When the start date is after the end date, or when no row has its
    [orderdate] between the two dates, the frame that reaches the plotting
    block is empty: the call makes no plot, prints the no-sales message and
    returns normally. *)
Theorem inverted_date_range_prints_no_sales
    (sns : Seaborn) (df : list SalesRow) (s e : option date)
    (c pl : string) (n : Z) :
  after s e
  \/ (forall r, In r df ->
        ts_ge (orderdate r) (pd_Timestamp s)
        && ts_le (orderdate r) (pd_Timestamp e) = false) ->
  aggregated df s e c pl n = []
  /\ plot_top_n_sales sns df s e c pl n
     = [ Print ("There were no sales of " ++ pl ++ " to " ++ c
                ++ " during that period")%string ]
  /\ (forall st,
        nth_error (heap st) (product_sales_df st) = Some (SalesFrame df) ->
        exists st',
          plot_top_n_sales_st sns s e c pl n st = Some (tt, st')
          /\ stdout st'
             = stdout st
               ++ [ Print ("There were no sales of " ++ pl ++ " to " ++ c
                           ++ " during that period")%string ]).
Proof.
  intro H.
  assert (Hno : forall r, In r df -> in_dates s e r = false).
  { destruct H as [H|H]; [intros r _; apply after_keeps_no_row, H | exact H]. }
  pose proof (no_row_in_range_aggregated df s e c pl n Hno) as Hagg.
  assert (Hev : plot_top_n_sales sns df s e c pl n
                = [ Print (no_sales_message pl c) ]).
  { rewrite plot_top_n_sales_block, Hagg. reflexivity. }
  split; [exact Hagg|]. split; [exact Hev|].
  intros st Hst.
  destruct (plot_top_n_sales_returns sns df s e c pl n st Hst)
    as (st' & E & Hout).
  exists st'. split; [exact E|]. rewrite Hout, Hev. reflexivity.
Qed.

Lemma inverted_date_range_prints_no_sales_witness :
  after (Some (ymd 2024 3 1)) (Some (ymd 2024 2 1))
  /\ plot_top_n_sales sns_ok example_sales
       (Some (ymd 2024 3 1)) (Some (ymd 2024 2 1)) "ALL" "ALL" 5
     = [ Print "There were no sales of ALL to ALL during that period" ].
Proof.
  assert (H : after (Some (ymd 2024 3 1)) (Some (ymd 2024 2 1)))
    by (vm_compute; reflexivity).
  split; [exact H|].
  exact (proj1 (proj2 (inverted_date_range_prints_no_sales sns_ok
                         example_sales (Some (ymd 2024 3 1))
                         (Some (ymd 2024 2 1)) "ALL" "ALL" 5
                         (or_introl H)))).
Defined.

(* ================================================================== *)
(** ** The widgets *)

Lemma plot_block_one_barplot (sns : Seaborn) (fdf : list Row)
    (title c pl : string) (n : Z) :
  (List.length (filter is_barplot (plot_block sns fdf title c pl n)) <= 1)%nat.
Proof.
  unfold plot_block. destruct (empty fdf); simpl; [auto|].
  destruct (barplot_raises sns _); [|destruct (set_raises sns _)];
    simpl; auto.
Qed.

(** C7, as the notebook has it.  [widgets.interact] is given five widgets,
    one per parameter of [plot_top_n_sales]: two date pickers, for the
    start and the end date, two dropdowns, for the country and the product
    line, and an integer slider from 1 to 10; a call of the function makes
    at most one plot. *)
Theorem dashboard_has_five_widgets (df : list SalesRow) :
  List.length (interact_widgets df) = 5%nat
  /\ map fst (interact_widgets df) = plot_top_n_sales_parameters
  /\ (exists d1 d2 countries productlines,
        map snd (interact_widgets df)
        = [ DatePicker d1 "Start Date";
            DatePicker d2 "End Date";
            Dropdown ("ALL" :: countries) "ALL" "Country";
            Dropdown ("ALL" :: productlines) "ALL" "Product Line";
            IntSlider 5 1 10 1 "Top N" ])
  /\ (forall sns s e c pl n,
        (List.length
           (filter is_barplot (plot_top_n_sales sns df s e c pl n))
         <= 1)%nat).
Proof.
  split; [reflexivity|]. split; [reflexivity|]. split.
  - do 4 eexists. reflexivity.
  - intros sns s e c pl n. rewrite plot_top_n_sales_block.
    apply plot_block_one_barplot.
Qed.

(** C7, as worded, fails: the widgets are not four. *)
Lemma widgets_are_not_four :
  List.length (interact_widgets example_sales) = 5%nat
  /\ List.length (interact_widgets example_sales) <> 4%nat.
Proof.
  split; [reflexivity | discriminate].
Qed.

(* ================================================================== *)
(** ** The Glue resources *)

(** C8. The crawler reads [s3://<data_lake_bucket>/gold]; the default
    arguments of the ETL job are [--enable-job-insights], [--job-language],
    [--glue_connection], [--glue_database] and [--target_path]; its timeout
    is 5 (minutes), and it runs on 2 workers of type G.1X. *)
Theorem glue_resources_fix_the_constants (var : Glue.Vars)
    (refs : Glue.Refs) :
  Glue.s3_target_path (Glue.s3_crawler var refs)
  = ("s3://" ++ Glue.data_lake_bucket var ++ "/gold")%string
  /\ map fst (Glue.default_arguments (Glue.etl_job var refs))
     = [ "--enable-job-insights"; "--job-language"; "--glue_connection";
         "--glue_database"; "--target_path" ]
  /\ Glue.timeout (Glue.etl_job var refs) = 5
  /\ Glue.number_of_workers (Glue.etl_job var refs) = 2
  /\ Glue.worker_type (Glue.etl_job var refs) = "G.1X".
Proof.
  unfold Glue.s3_crawler, Glue.etl_job. simpl.
  repeat split.
Qed.

(* ================================================================== *)
(** ** The dropdowns and the date pickers *)

Section SortedBy.
Context {A : Type}.
Variable leb : A -> A -> bool.
Hypothesis leb_total : forall x y, leb x y = false -> leb y x = true.

Lemma insert_by_Sorted (x : A) (l : list A) :
  Sorted (fun a b => leb a b = true) l ->
  Sorted (fun a b => leb a b = true) (insert_by leb x l).
Proof.
  induction l as [|y l IH]; simpl; intro H.
  - constructor; constructor.
  - destruct (leb x y) eqn:E.
    + constructor; [exact H | constructor; exact E].
    + inversion H as [|? ? Hl Hy]; subst.
      constructor; [apply IH; exact Hl|].
      destruct l as [|z l]; simpl.
      * constructor. apply leb_total. exact E.
      * destruct (leb x z).
        -- constructor. apply leb_total. exact E.
        -- constructor. inversion Hy; assumption.
Qed.

Lemma sort_by_Sorted (l : list A) :
  Sorted (fun a b => leb a b = true) (sort_by leb l).
Proof.
  induction l as [|x l IH]; simpl.
  - constructor.
  - apply insert_by_Sorted, IH.
Qed.

End SortedBy.

Lemma String_leb_total (x y : string) :
  String.leb x y = false -> String.leb y x = true.
Proof.
  unfold String.leb. rewrite (String.compare_antisym y x).
  destruct (String.compare x y); simpl; congruence.
Qed.

Lemma sorted_ascending (l : list string) : ascending (sorted l).
Proof. apply sort_by_Sorted. exact String_leb_total. Qed.

Lemma unique_In (l : list string) (x : string) :
  In x (unique l) <-> In x l.
Proof.
  induction l as [|y l IH]; simpl; [reflexivity|].
  rewrite filter_In, IH, negb_true_iff, String.eqb_neq.
  destruct (string_dec y x) as [->|Hne]; [tauto|].
  split; [tauto|]. intros [H|H]; [tauto|].
  right. split; [exact H | congruence].
Qed.

Lemma unique_NoDup (l : list string) : NoDup (unique l).
Proof.
  induction l as [|y l IH]; simpl; constructor.
  - rewrite filter_In, negb_true_iff, String.eqb_neq. tauto.
  - apply NoDup_filter, IH.
Qed.

Lemma sorted_unique_In (l : list string) (x : string) :
  In x (sorted (unique l)) <-> In x l.
Proof.
  unfold sorted. rewrite sort_by_In. apply unique_In.
Qed.

(** X1. Each dropdown offers ["ALL"], its default, followed by the values
    of its column: every value that occurs in the table is offered, once,
    and nothing else is; the values come in ascending order. *)
Theorem dropdowns_offer_ALL_then_the_column_values (df : list SalesRow) :
  (exists cs,
     country_widget df = Dropdown ("ALL" :: cs) "ALL" "Country"
     /\ NoDup cs /\ ascending cs
     /\ forall c, In c cs <-> exists r, In r df /\ country (sales r) = c)
  /\ (exists ps,
        productline_widget df = Dropdown ("ALL" :: ps) "ALL" "Product Line"
        /\ NoDup ps /\ ascending ps
        /\ forall p, In p ps
                     <-> exists r, In r df /\ productline (sales r) = p).
Proof.
  split; eexists; (split; [reflexivity|]);
    (split; [apply sort_by_NoDup, unique_NoDup|]);
    (split; [apply sorted_ascending|]);
    intro v; rewrite sorted_unique_In, in_map_iff;
    split; intros (r & H1 & H2); exists r; auto.
Qed.




(* ================================================================== *)
(** ** When a plot is made *)

Lemma aggregated_nonempty_iff (df : list SalesRow) (s e : option date)
    (c pl : string) (n : Z) :
  aggregated df s e c pl n <> []
  <-> exists r, In r df /\ in_dates s e r = true
                /\ selected c pl (sales r) = true.
Proof.
  split.
  - intro H. destruct (aggregated df s e c pl n) as [|p A] eqn:E;
      [congruence|].
    assert (Hp : In (productname p)
                    (map productname (aggregated df s e c pl n)))
      by (rewrite E; left; reflexivity).
    apply aggregated_names in Hp.
    destruct Hp as (r & Hr & Hd & Hs & _). exists r. auto.
  - intros (r & Hr & Hd & Hs) E.
    assert (Hp : In (productname (sales r))
                    (map productname (aggregated df s e c pl n)))
      by (apply aggregated_names; exists r; auto).
    rewrite E in Hp. exact Hp.
Qed.

Lemma plot_block_nonempty (sns : Seaborn) (fdf : list Row)
    (title c pl : string) (n : Z) :
  fdf <> [] ->
  In (Barplot "total_sales" "productname" (head n (sort_values fdf)))
     (plot_block sns fdf title c pl n).
Proof.
  intro H. unfold plot_block.
  destruct fdf as [|r fdf]; [congruence|]. left. reflexivity.
Qed.

(** X3. A call makes a plot exactly when some row of the table lies
    between the two dates and falls under the selection of the two
    dropdowns; when none does, all it does is print the no-sales
    message. *)
Theorem plot_iff_a_row_matches
    (sns : Seaborn) (df : list SalesRow) (s e : option date)
    (c pl : string) (n : Z) :
  ((exists x y data,
      In (Barplot x y data) (plot_top_n_sales sns df s e c pl n))
   <-> exists r, In r df /\ in_dates s e r = true
                 /\ selected c pl (sales r) = true)
  /\ ((forall r, In r df -> in_dates s e r = true ->
                 selected c pl (sales r) = false) ->
      plot_top_n_sales sns df s e c pl n
      = [Print (no_sales_message pl c)]).
Proof.
  split.
  - rewrite <- aggregated_nonempty_iff. split.
    + intros (x & y & data & H).
      apply (plot_top_n_sales_Barplot _ _ _ _ _ _ _ _ _ _ H).
    + intro H. do 3 eexists. rewrite plot_top_n_sales_block.
      apply plot_block_nonempty. exact H.
  - intro Hnone. rewrite plot_top_n_sales_block.
    destruct (aggregated df s e c pl n) as [|p A] eqn:E; [reflexivity|].
    exfalso.
    assert (Hne : aggregated df s e c pl n <> []) by (rewrite E; discriminate).
    apply aggregated_nonempty_iff in Hne.
    destruct Hne as (r & Hr & Hd & Hs).
    rewrite (Hnone r Hr Hd) in Hs. discriminate.
Qed.

(** X4. The dropdowns offer no value without sales: when the dates cover
    the table, choosing any option of the country dropdown with the
    product line on ["ALL"], or any option of the product-line dropdown
    with the country on ["ALL"], makes a plot, unless the table is
    empty. *)
Theorem every_dropdown_option_has_sales
    (sns : Seaborn) (df : list SalesRow) (s e : option date) (n : Z)
    (v : string) :
  df <> [] ->
  (forall r, In r df -> in_dates s e r = true) ->
  (In v (options (country_widget df)) ->
   In (Barplot "total_sales" "productname" (plot_data df s e v "ALL" n))
      (plot_top_n_sales sns df s e v "ALL" n))
  /\ (In v (options (productline_widget df)) ->
      In (Barplot "total_sales" "productname" (plot_data df s e "ALL" v n))
         (plot_top_n_sales sns df s e "ALL" v n)).
Proof.
  intros Hne Hcover.
  assert (Hplot : forall c pl,
            (exists r, In r df /\ selected c pl (sales r) = true) ->
            In (Barplot "total_sales" "productname" (plot_data df s e c pl n))
               (plot_top_n_sales sns df s e c pl n)).
  { intros c pl (r & Hr & Hs). rewrite plot_top_n_sales_block.
    apply plot_block_nonempty. apply aggregated_nonempty_iff.
    exists r. auto. }
  destruct df as [|r0 df0] eqn:Edf; [congruence|]. rewrite <- Edf in *.
  assert (Hr0 : In r0 df) by (rewrite Edf; left; reflexivity).
  split; intro Hv; apply Hplot; simpl in Hv; destruct Hv as [<-|Hv].
  - exists r0. split; [exact Hr0 | reflexivity].
  - apply sorted_unique_In, in_map_iff in Hv.
    destruct Hv as (r & <- & Hr). exists r. split; [exact Hr|].
    unfold selected. rewrite !String.eqb_refl, ?orb_true_r. reflexivity.
  - exists r0. split; [exact Hr0 | reflexivity].
  - apply sorted_unique_In, in_map_iff in Hv.
    destruct Hv as (r & <- & Hr). exists r. split; [exact Hr|].
    unfold selected. rewrite !String.eqb_refl, ?orb_true_r. reflexivity.
Qed.

Lemma every_dropdown_option_has_sales_witness :
  example_sales <> []
  /\ In "France" (options (country_widget example_sales))
  /\ In (Barplot "total_sales" "productname"
           (plot_data example_sales (Some (ymd 2024 1 1))
                      (Some (ymd 2024 2 1)) "France" "ALL" 5))
        (plot_top_n_sales sns_ok example_sales (Some (ymd 2024 1 1))
                          (Some (ymd 2024 2 1)) "France" "ALL" 5).
Proof.
  assert (Hne : example_sales <> []) by discriminate.
  assert (Hin : In "France" (options (country_widget example_sales)))
    by (right; left; reflexivity).
  split; [exact Hne|]. split; [exact Hin|].
  refine (proj1 (every_dropdown_option_has_sales sns_ok example_sales
                   (Some (ymd 2024 1 1)) (Some (ymd 2024 2 1)) 5 "France"
                   Hne _) Hin).
  intros r [<-|[<-|[]]]; reflexivity.
Defined.

(* ================================================================== *)
(** ** Totals and bars *)

Lemma country_step_total_respecting (c : string) (Q : Row -> bool)
    (df : list Row) :
  respects [productname_col] Q ->
  int64_wrap (total_where Q (country_step c df))
  = int64_wrap
      (total_where
         (fun r => Q r && (String.eqb c "ALL" || String.eqb (country r) c))
         df).
Proof.
  intro HQ. unfold country_step. destruct (String.eqb c "ALL"); simpl.
  - rewrite groupby_total_where by exact HQ.
    f_equal. apply total_where_ext. intro r. rewrite andb_true_r.
    reflexivity.
  - unfold where_eq. rewrite total_where_filter. reflexivity.
Qed.

Lemma respects_const (keys : list Column) (b : bool) :
  respects keys (fun _ => b).
Proof. intros r r' _. reflexivity. Qed.

Lemma total_where_all (df : list Row) :
  total_where (fun _ => true) df = grand_total df.
Proof. unfold total_where, grand_total. rewrite filter_true. reflexivity. Qed.

Lemma aggregated_grand_total_wrap
    (df : list SalesRow) (s e : option date) (c pl : string) (n : Z) :
  int64_wrap (grand_total (aggregated df s e c pl n))
  = int64_wrap
      (sales_total (fun r => in_dates s e r && selected c pl (sales r)) df).
Proof.
  rewrite <- total_where_all, aggregated_steps.
  rewrite country_step_total_respecting by apply respects_const.
  rewrite productline_step_total.
  - rewrite groupby_total_where.
    + f_equal. rewrite date_step_total. apply sales_total_ext. intro r.
      unfold selected. simpl. f_equal. apply andb_comm.
    + apply respects_and; [apply respects_and; [apply respects_const|]|];
        apply respects_or_const.
      * apply (respects_get _ country_col). right. right. left. reflexivity.
      * apply (respects_get _ productline_col). left. reflexivity.
  - apply respects_and; [apply respects_const|].
    apply respects_or_const.
    apply (respects_get _ country_col). right. left. reflexivity.
Qed.

Lemma sum_Z_name_absent (x : string) (v : Z) (names : list string) :
  ~ In x names ->
  sum_Z (map (fun n => if String.eqb x n then v else 0) names) = 0.
Proof.
  induction names as [|m names IH]; simpl; intro H; [reflexivity|].
  destruct (String.eqb x m) eqn:E.
  - apply String.eqb_eq in E. exfalso. apply H. left. congruence.
  - apply IH. intro Hin. apply H. right. exact Hin.
Qed.

Lemma sum_Z_name_indicator (x : string) (v : Z) (names : list string) :
  NoDup names -> In x names ->
  sum_Z (map (fun n => if String.eqb x n then v else 0) names) = v.
Proof.
  induction 1 as [|m names Hm Hnd IH]; simpl; intro Hin; [contradiction|].
  destruct Hin as [->|Hin].
  - rewrite String.eqb_refl, sum_Z_name_absent by exact Hm. lia.
  - destruct (String.eqb x m) eqn:E.
    + apply String.eqb_eq in E. subst. contradiction.
    + apply IH. exact Hin.
Qed.

(** Summing name by name is summing the rows, when every row that counts
    has its name in the list. *)
Lemma sales_total_by_names (names : list string) (P : SalesRow -> bool)
    (df : list SalesRow) :
  NoDup names ->
  (forall r, In r df -> P r = true -> In (productname (sales r)) names) ->
  sum_Z (map (fun m => sales_total (fun r => P r && named m (sales r)) df)
             names)
  = sales_total P df.
Proof.
  intro Hnd. unfold sales_total.
  induction df as [|r df IH]; intro Hin.
  - simpl. apply sum_Z_map_zero.
  - rewrite (sum_Z_map_ext_in _
      (fun m => (if String.eqb (productname (sales r)) m
                 then (if P r then total_sales (sales r) else 0) else 0)
                + sum_Z (map (fun r => total_sales (sales r))
                             (filter (fun r => P r && named m (sales r))
                                     df)))).
    + rewrite sum_Z_map_add, IH
        by (intros r' Hr'; apply Hin; right; exact Hr').
      simpl. destruct (P r) eqn:EP; simpl.
      * rewrite sum_Z_name_indicator; [reflexivity | exact Hnd |].
        apply Hin; [left; reflexivity | exact EP].
      * rewrite (sum_Z_map_ext_in _ (fun _ => 0))
          by (intros m _; destruct (String.eqb _ m); reflexivity).
        rewrite sum_Z_map_zero. reflexivity.
    + intros m _. simpl. unfold named.
      destruct (P r), (String.eqb (productname (sales r)) m); reflexivity.
Qed.

Lemma sales_total_bounds (P Q : SalesRow -> bool) (df : list SalesRow) :
  (forall r, In r df -> P r = true -> 0 <= total_sales (sales r)) ->
  (forall r, Q r = true -> P r = true) ->
  0 <= sales_total Q df <= sales_total P df.
Proof.
  unfold sales_total. intros Hpos HQP.
  induction df as [|r df IH]; simpl; [lia|].
  assert (IH' := IH (fun r' Hr' => Hpos r' (or_intror Hr'))).
  pose proof (Hpos r (or_introl eq_refl)) as Hr.
  pose proof (HQP r) as HQr.
  destruct (Q r), (P r); simpl;
    try (specialize (HQr eq_refl); discriminate);
    try specialize (Hr eq_refl); lia.
Qed.

(** X5. Nothing is lost and nothing counted twice on the way to the
    plotting block: summed as the 64-bit column sums, the totals of the
    frame that reaches it give the column's sum over the rows of the table
    that lie between the two dates and fall under the selection.  When
    those rows have amounts that are not negative and an exact sum below
    [2^63], the totals add up to that exact sum. *)
Theorem aggregated_totals_add_up
    (df : list SalesRow) (s e : option date) (c pl : string) (n : Z) :
  sum_int64 (map total_sales (aggregated df s e c pl n))
  = column_sum (fun r => in_dates s e r && selected c pl (sales r)) df
  /\ ((forall r, In r df -> in_dates s e r = true ->
                 selected c pl (sales r) = true ->
                 0 <= total_sales (sales r)) ->
      sales_total (fun r => in_dates s e r && selected c pl (sales r)) df
      < 2 ^ 63 ->
      grand_total (aggregated df s e c pl n)
      = sales_total (fun r => in_dates s e r && selected c pl (sales r)) df).
Proof.
  split.
  - rewrite sum_int64_wrap, column_sum_wrap.
    apply aggregated_grand_total_wrap.
  - intros Hpos Hfit.
    set (P := fun r => in_dates s e r && selected c pl (sales r)) in *.
    assert (HposP : forall r, In r df -> P r = true ->
                      0 <= total_sales (sales r)).
    { intros r Hr HP. apply andb_true_iff in HP.
      apply Hpos; tauto. }
    rewrite <- (sales_total_by_names
                  (map productname (aggregated df s e c pl n)) P df).
    + unfold grand_total. rewrite map_map. apply sum_Z_map_ext_in.
      intros p Hp. rewrite (aggregated_total _ _ _ _ _ _ _ Hp).
      rewrite (sales_total_ext _
                 (fun r => P r && named (productname p) (sales r)))
        by (intro r; unfold P; rewrite andb_assoc; reflexivity).
      apply int64_wrap_small.
      assert (B : 0 <= sales_total
                         (fun r => P r && named (productname p) (sales r))
                         df
                    <= sales_total P df).
      { apply sales_total_bounds; [exact HposP|].
        intros r H. apply andb_true_iff in H. tauto. }
      unfold int64. change (2 ^ 63) with 9223372036854775808 in *. lia.
    + apply aggregated_NoDup.
    + intros r Hr HP. apply andb_true_iff in HP.
      apply aggregated_names. exists r. tauto.
Qed.

Lemma NoDup_firstn {A : Type} (k : nat) (l : list A) :
  NoDup l -> NoDup (firstn k l).
Proof.
  intro H. rewrite <- (firstn_skipn k l) in H.
  apply NoDup_app_remove_r in H. exact H.
Qed.

Lemma aggregated_top_n (df : list SalesRow) (s e : option date)
    (c pl : string) (n m : Z) :
  aggregated df s e c pl n = aggregated df s e c pl m.
Proof. rewrite !aggregated_steps. reflexivity. Qed.

Lemma plot_data_head (df : list SalesRow) (s e : option date)
    (c pl : string) (n : Z) :
  plot_data df s e c pl n
  = head n (sort_values (aggregated df s e c pl n)).
Proof. reflexivity. Qed.

(** X6. No product is plotted twice: the rows of the frame handed to
    [sns.barplot] have pairwise different product names. *)
Theorem plotted_names_are_distinct
    (df : list SalesRow) (s e : option date) (c pl : string) (n : Z) :
  NoDup (map productname (plot_data df s e c pl n)).
Proof.
  rewrite plot_data_head.
  destruct (head_firstn n (sort_values (aggregated df s e c pl n)))
    as [k ->].
  rewrite <- firstn_map. apply NoDup_firstn.
  apply (Permutation_NoDup
           (l := map productname (aggregated df s e c pl n))).
  - apply Permutation_map, Permutation_sym. apply sort_by_perm.
  - apply aggregated_NoDup.
Qed.

(** X7. Moving the slider up only adds bars: for [0 <= n <= m] the frame
    plotted for [top_n = n] is the first [n] rows of the frame plotted for
    [top_n = m]. *)
Theorem smaller_top_n_plots_a_prefix
    (df : list SalesRow) (s e : option date) (c pl : string) (n m : Z) :
  0 <= n <= m ->
  plot_data df s e c pl n
  = firstn (Z.to_nat n) (plot_data df s e c pl m).
Proof.
  intros [H0 Hnm]. rewrite !plot_data_head.
  rewrite (aggregated_top_n df s e c pl n m). unfold head.
  destruct (0 <=? n) eqn:En; [|apply Z.leb_gt in En; lia].
  destruct (0 <=? m) eqn:Em; [|apply Z.leb_gt in Em; lia].
  rewrite firstn_firstn. f_equal. lia.
Qed.

Lemma smaller_top_n_plots_a_prefix_witness :
  0 <= 1 <= 5
  /\ plot_data example_sales (Some (ymd 2024 1 1)) (Some (ymd 2024 2 1))
               "ALL" "ALL" 1
     = firstn (Z.to_nat 1)
         (plot_data example_sales (Some (ymd 2024 1 1))
                    (Some (ymd 2024 2 1)) "ALL" "ALL" 5).
Proof.
  assert (H : 0 <= 1 <= 5) by lia.
  split; [exact H|].
  exact (smaller_top_n_plots_a_prefix example_sales (Some (ymd 2024 1 1))
           (Some (ymd 2024 2 1)) "ALL" "ALL" 1 5 H).
Defined.

(** X8. When [top_n] is at least the number of rows that reach the
    plotting block, all of them are plotted: the plotted frame is that
    frame in sorted order, every product with a row between the dates and
    under the selection has its bar, and the bars add up to the sum over
    those rows. *)
Theorem large_top_n_plots_every_product
    (df : list SalesRow) (s e : option date) (c pl : string) (n : Z) :
  Z.of_nat (List.length (aggregated df s e c pl n)) <= n ->
  plot_data df s e c pl n = sort_values (aggregated df s e c pl n)
  /\ Permutation (plot_data df s e c pl n) (aggregated df s e c pl n)
  /\ (forall r, In r df -> in_dates s e r = true ->
                selected c pl (sales r) = true ->
                In (productname (sales r))
                   (map productname (plot_data df s e c pl n)))
  /\ grand_total (plot_data df s e c pl n)
     = grand_total (aggregated df s e c pl n).
Proof.
  intro Hn.
  assert (E : plot_data df s e c pl n
              = sort_values (aggregated df s e c pl n)).
  { rewrite plot_data_head. unfold head.
    destruct (0 <=? n) eqn:En; [|apply Z.leb_gt in En; lia].
    apply firstn_all2. unfold sort_values. rewrite sort_by_length. lia. }
  assert (P : Permutation (plot_data df s e c pl n)
                          (aggregated df s e c pl n))
    by (rewrite E; apply sort_by_perm).
  split; [exact E|]. split; [exact P|]. split.
  - intros r Hr Hd Hs.
    apply (Permutation_in _
             (Permutation_sym (Permutation_map productname P))).
    apply aggregated_names. exists r. auto.
  - unfold grand_total. clear E Hn.
    induction P as [|x l l' _ IH|x y l|l l' l'' _ IH1 _ IH2]; simpl; lia.
Qed.

Lemma large_top_n_plots_every_product_witness :
  Z.of_nat
    (List.length
       (aggregated example_sales (Some (ymd 2024 1 1))
                   (Some (ymd 2024 2 1)) "ALL" "ALL" 5)) <= 5
  /\ plot_data example_sales (Some (ymd 2024 1 1)) (Some (ymd 2024 2 1))
               "ALL" "ALL" 5
     = sort_values
         (aggregated example_sales (Some (ymd 2024 1 1))
                     (Some (ymd 2024 2 1)) "ALL" "ALL" 5).
Proof.
  assert (H : Z.of_nat
                (List.length
                   (aggregated example_sales (Some (ymd 2024 1 1))
                               (Some (ymd 2024 2 1)) "ALL" "ALL" 5)) <= 5)
    by (vm_compute; discriminate).
  split; [exact H|].
  exact (proj1 (large_top_n_plots_every_product example_sales
                  (Some (ymd 2024 1 1)) (Some (ymd 2024 2 1))
                  "ALL" "ALL" 5 H)).
Defined.

(* ================================================================== *)
(** ** Edge cases of a call *)

Lemma no_sales_message_not_error (pl c : string) :
  Print "error" <> Print (no_sales_message pl c).
Proof. unfold no_sales_message. simpl. discriminate. Qed.

(** X9. The emptiness test comes before [head]: when rows reach the
    plotting block but [top_n] is 0, or negative with at least as many
    rows to drop as there are, the function still calls [sns.barplot],
    with an empty frame, and does not print the no-sales message. *)
Theorem nonpositive_top_n_plots_an_empty_frame
    (sns : Seaborn) (df : list SalesRow) (s e : option date)
    (c pl : string) (n : Z) :
  aggregated df s e c pl n <> [] ->
  n = 0 \/ Z.of_nat (List.length (aggregated df s e c pl n)) <= - n ->
  plot_data df s e c pl n = []
  /\ In (Barplot "total_sales" "productname" [])
        (plot_top_n_sales sns df s e c pl n)
  /\ ~ In (Print (no_sales_message pl c))
          (plot_top_n_sales sns df s e c pl n).
Proof.
  intros Hne Hn.
  assert (E : plot_data df s e c pl n = []).
  { rewrite plot_data_head. unfold head.
    destruct Hn as [->|Hn]; [reflexivity|].
    destruct (0 <=? n) eqn:En.
    - apply Z.leb_le in En.
      destruct (aggregated df s e c pl n); [congruence | simpl in Hn; lia].
    - unfold sort_values. rewrite sort_by_length.
      replace (List.length (aggregated df s e c pl n) - Z.to_nat (- n))%nat
        with 0%nat by lia.
      reflexivity. }
  split; [exact E|].
  rewrite plot_top_n_sales_block. split.
  - rewrite <- E. apply plot_block_nonempty. exact Hne.
  - unfold plot_block.
    destruct (aggregated df s e c pl n) as [|p A]; [congruence|]. simpl.
    pose proof (no_sales_message_not_error pl c) as Hmsg.
    destruct (barplot_raises sns _); [|destruct (set_raises sns _)];
      simpl; intuition discriminate || congruence.
Qed.

Lemma nonpositive_top_n_plots_an_empty_frame_witness :
  aggregated example_sales (Some (ymd 2024 1 1)) (Some (ymd 2024 2 1))
             "ALL" "ALL" 0 <> []
  /\ plot_top_n_sales sns_ok example_sales (Some (ymd 2024 1 1))
                      (Some (ymd 2024 2 1)) "ALL" "ALL" 0
     = [ Barplot "total_sales" "productname" [];
         AxSet "Total Sales" "Product Name" "Top 0 Popular Products" ]
  /\ plot_data example_sales (Some (ymd 2024 1 1)) (Some (ymd 2024 2 1))
               "ALL" "ALL" 0 = [].
Proof.
  assert (H : aggregated example_sales (Some (ymd 2024 1 1))
                         (Some (ymd 2024 2 1)) "ALL" "ALL" 0 <> [])
    by (vm_compute; discriminate).
  split; [exact H|]. split; [vm_compute; reflexivity|].
  exact (proj1 (nonpositive_top_n_plots_an_empty_frame sns_ok example_sales
                  (Some (ymd 2024 1 1)) (Some (ymd 2024 2 1)) "ALL" "ALL" 0
                  H (or_introl eq_refl))).
Defined.

Lemma no_row_in_range_prints (sns : Seaborn) (df : list SalesRow)
    (s e : option date) (c pl : string) (n : Z) :
  (forall r, In r df -> in_dates s e r = false) ->
  plot_top_n_sales sns df s e c pl n = [Print (no_sales_message pl c)].
Proof.
  intro H. rewrite plot_top_n_sales_block.
  rewrite (no_row_in_range_aggregated df s e c pl n H). reflexivity.
Qed.

(** X10. The end date counts up to its midnight only: a table whose rows
    all have an [orderdate] later than midnight of the end date, be it on
    that very day, gives the no-sales message; a row at midnight of the end
    date is kept when the start date is not later. *)
Theorem end_date_is_kept_until_midnight
    (sns : Seaborn) (df : list SalesRow) (a b : date)
    (c pl : string) (n : Z) :
  (forall r, In r df ->
     exists t, 0 < t
               /\ orderdate r = Ts ((b - epoch_ordinal) * ns_per_day + t)) ->
  plot_top_n_sales sns df (Some a) (Some b) c pl n
  = [Print (no_sales_message pl c)]
  /\ (a <= b ->
      forall row,
        in_dates (Some a) (Some b)
                 (mkSales (Ts ((b - epoch_ordinal) * ns_per_day)) row)
        = true).
Proof.
  intro H. split.
  - apply no_row_in_range_prints. intros r Hr.
    destruct (H r Hr) as (t & Ht & E).
    unfold in_dates, in_range, ts_ge, ts_le, pd_Timestamp. rewrite E.
    apply andb_false_iff. right. apply Z.leb_gt. lia.
  - intros Hab row.
    unfold in_dates, in_range, ts_ge, ts_le, pd_Timestamp. simpl.
    apply andb_true_iff. split; apply Z.leb_le; unfold ns_per_day; lia.
Qed.

Lemma end_date_is_kept_until_midnight_witness :
  (forall r,
     In r [mkSales (Ts ((ymd 2024 1 31 - epoch_ordinal) * ns_per_day
                        + 3600 * 1000000000))
                   (mkRow "Motorcycles" "P1" "USA" 100)] ->
     exists t, 0 < t
               /\ orderdate r
                  = Ts ((ymd 2024 1 31 - epoch_ordinal) * ns_per_day + t))
  /\ plot_top_n_sales sns_ok
       [mkSales (Ts ((ymd 2024 1 31 - epoch_ordinal) * ns_per_day
                     + 3600 * 1000000000))
                (mkRow "Motorcycles" "P1" "USA" 100)]
       (Some (ymd 2024 1 1)) (Some (ymd 2024 1 31)) "ALL" "ALL" 5
     = [Print (no_sales_message "ALL" "ALL")].
Proof.
  assert (H : forall r,
            In r [mkSales (Ts ((ymd 2024 1 31 - epoch_ordinal) * ns_per_day
                               + 3600 * 1000000000))
                          (mkRow "Motorcycles" "P1" "USA" 100)] ->
            exists t, 0 < t
                      /\ orderdate r
                         = Ts ((ymd 2024 1 31 - epoch_ordinal) * ns_per_day
                               + t)).
  { intros r [<-|[]]. exists (3600 * 1000000000). split; [lia | reflexivity]. }
  split; [exact H|].
  exact (proj1 (end_date_is_kept_until_midnight sns_ok _
                  (ymd 2024 1 1) (ymd 2024 1 31) "ALL" "ALL" 5 H)).
Defined.

(** X11. A cleared date picker gives no date, and with no start date or no
    end date no row passes the date comparison: the call prints the
    no-sales message, whatever the table. *)
Theorem cleared_date_picker_prints_no_sales
    (sns : Seaborn) (df : list SalesRow) (s e : option date)
    (c pl : string) (n : Z) :
  s = None \/ e = None ->
  aggregated df s e c pl n = []
  /\ plot_top_n_sales sns df s e c pl n = [Print (no_sales_message pl c)].
Proof.
  intro H.
  assert (Hno : forall r, In r df -> in_dates s e r = false).
  { intros r _. unfold in_dates, in_range, ts_ge, ts_le.
    destruct H as [->| ->]; simpl.
    - reflexivity.
    - apply andb_false_iff. right. destruct (orderdate r); reflexivity. }
  split; [apply no_row_in_range_aggregated, Hno
         | apply no_row_in_range_prints, Hno].
Qed.

Lemma cleared_date_picker_prints_no_sales_witness :
  (@None date = None \/ Some (ymd 2024 1 31) = None)
  /\ plot_top_n_sales sns_ok example_sales None (Some (ymd 2024 1 31))
                      "ALL" "ALL" 5
     = [Print (no_sales_message "ALL" "ALL")].
Proof.
  assert (H : @None date = None \/ Some (ymd 2024 1 31) = None)
    by (left; reflexivity).
  split; [exact H|].
  exact (proj2 (cleared_date_picker_prints_no_sales sns_ok example_sales
                  None (Some (ymd 2024 1 31)) "ALL" "ALL" 5 H)).
Defined.

(* ================================================================== *)
(** ** The ten countries with the largest sales *)

Section DescendingBy.
Context {A : Type}.
Variable f : A -> Z.

Lemma insert_by_desc (x : A) (l : list A) :
  StronglySorted (fun a b => f b <= f a) l ->
  StronglySorted (fun a b => f b <= f a)
                 (insert_by (fun a b => f b <=? f a) x l).
Proof.
  induction l as [|y l IH]; intro H; simpl.
  - constructor; constructor.
  - inversion H as [|? ? Hl Hy]; subst.
    destruct (f y <=? f x) eqn:E.
    + apply Z.leb_le in E. constructor; [exact H|].
      constructor; [exact E|].
      rewrite Forall_forall in Hy |- *.
      intros z Hz. specialize (Hy z Hz). lia.
    + apply Z.leb_gt in E. constructor; [apply IH; exact Hl|].
      rewrite Forall_forall in Hy |- *. intros z Hz.
      apply (Permutation_in _ (insert_by_perm _ x l)) in Hz.
      destruct Hz as [<-|Hz]; [lia | apply Hy; exact Hz].
Qed.

Lemma sort_by_desc (l : list A) :
  StronglySorted (fun a b => f b <= f a)
                 (sort_by (fun a b => f b <=? f a) l).
Proof.
  induction l as [|x l IH]; simpl; [constructor|].
  apply insert_by_desc, IH.
Qed.

Lemma desc_firstn (k : nat) (l : list A) :
  StronglySorted (fun a b => f b <= f a) l ->
  StronglySorted (fun a b => f b <= f a) (firstn k l).
Proof.
  revert l. induction k as [|k IH]; intros l H; simpl; [constructor|].
  destruct l as [|x l]; [constructor|].
  inversion H as [|? ? Hl Hx]; subst.
  constructor; [apply IH; exact Hl|].
  rewrite Forall_forall in Hx |- *.
  intros z Hz. apply Hx. apply (In_firstn k). exact Hz.
Qed.

Lemma desc_app (l1 l2 : list A) (p q : A) :
  StronglySorted (fun a b => f b <= f a) (l1 ++ l2) ->
  In p l1 -> In q l2 -> f q <= f p.
Proof.
  induction l1 as [|x l1 IH]; simpl; intros H Hp Hq; [contradiction|].
  inversion H as [|? ? Hl Hx]; subst.
  destruct Hp as [->|Hp]; [|apply IH; assumption].
  rewrite Forall_forall in Hx. apply Hx.
  apply in_or_app. right. exact Hq.
Qed.

End DescendingBy.

(** X12. The cell that lists the countries with the largest sales shows
    ten rows of the frame, or all of them when there are fewer, in
    descending order of [total_sales]; no row it leaves out has a larger
    total than a row it shows. *)
Theorem top_countries_are_the_ten_largest
    (product_sales_by_country_df : list ByCountry.Row) :
  List.length (ByCountry.top_countries product_sales_by_country_df)
  = Nat.min 10 (List.length product_sales_by_country_df)
  /\ ByCountry.descending
       (ByCountry.top_countries product_sales_by_country_df)
  /\ (forall r,
        In r (ByCountry.top_countries product_sales_by_country_df) ->
        In r product_sales_by_country_df)
  /\ (forall p q,
        In p (ByCountry.top_countries product_sales_by_country_df) ->
        In q product_sales_by_country_df ->
        ~ In q (ByCountry.top_countries product_sales_by_country_df) ->
        ByCountry.total_sales q <= ByCountry.total_sales p).
Proof.
  set (df := product_sales_by_country_df).
  assert (E : ByCountry.top_countries df
              = firstn 10 (ByCountry.sort_values df)) by reflexivity.
  rewrite E. clear E.
  pose proof (sort_by_desc ByCountry.total_sales df) as Hs.
  fold ByCountry.sales_geb in Hs. fold (ByCountry.sort_values df) in Hs.
  split; [|split; [|split]].
  - rewrite length_firstn. unfold ByCountry.sort_values.
    rewrite sort_by_length. reflexivity.
  - apply (desc_firstn ByCountry.total_sales). exact Hs.
  - intros r Hr. apply In_firstn in Hr.
    apply (sort_by_In ByCountry.sales_geb). exact Hr.
  - intros p q Hp Hq Hnq.
    apply (desc_app ByCountry.total_sales
             (firstn 10 (ByCountry.sort_values df))
             (skipn 10 (ByCountry.sort_values df)));
      [rewrite firstn_skipn; exact Hs | exact Hp |].
    apply (sort_by_In ByCountry.sales_geb) in Hq.
    fold (ByCountry.sort_values df) in Hq.
    rewrite <- (firstn_skipn 10) in Hq.
    apply in_app_or in Hq. destruct Hq as [Hq|Hq];
      [contradiction | exact Hq].
Qed.

(* ================================================================== *)
(** ** How the Glue resources refer to each other *)

(** X13. The resources are wired to one another: the crawler fills the
    catalog database whose name the ETL job receives as [--glue_database];
    the job runs over the JDBC connection whose name it receives as
    [--glue_connection]; the crawler reads the [gold] folder under the path
    the job receives as [--target_path]; crawler and job run under the same
    role. *)
Theorem glue_resources_refer_to_each_other (var : Glue.Vars)
    (refs : Glue.Refs) :
  Glue.database_name (Glue.s3_crawler var refs)
  = Glue.db_name (Glue.ml_database var)
  /\ In ("--glue_database", Glue.database_name (Glue.s3_crawler var refs))
        (Glue.default_arguments (Glue.etl_job var refs))
  /\ Glue.connections (Glue.etl_job var refs)
     = [Glue.conn_name (Glue.rds_connection var refs)]
  /\ In ("--glue_connection", Glue.conn_name (Glue.rds_connection var refs))
        (Glue.default_arguments (Glue.etl_job var refs))
  /\ (exists target,
        In ("--target_path", target)
           (Glue.default_arguments (Glue.etl_job var refs))
        /\ Glue.s3_target_path (Glue.s3_crawler var refs)
           = (target ++ "/gold")%string)
  /\ Glue.role (Glue.s3_crawler var refs)
     = Glue.role_arn (Glue.etl_job var refs).
Proof.
  split; [reflexivity|].
  split; [simpl; tauto|].
  split; [reflexivity|].
  split; [simpl; tauto|].
  split; [|reflexivity].
  exists ("s3://" ++ Glue.data_lake_bucket var)%string.
  split; [simpl; tauto | reflexivity].
Qed.

(* ================================================================== *)
(** ** The order of strings and of keys *)

Lemma String_compare_refl (a : string) : String.compare a a = Eq.
Proof. apply OrderedTypeEx.String_as_OT.cmp_eq. reflexivity. Qed.

Lemma String_compare_lt_trans (a b c : string) :
  String.compare a b = Lt -> String.compare b c = Lt ->
  String.compare a c = Lt.
Proof.
  intros H1 H2.
  apply OrderedTypeEx.String_as_OT.cmp_lt in H1.
  apply OrderedTypeEx.String_as_OT.cmp_lt in H2.
  apply OrderedTypeEx.String_as_OT.cmp_lt.
  exact (OrderedTypeEx.String_as_OT.lt_trans _ _ _ H1 H2).
Qed.

Lemma String_leb_antisym (a b : string) :
  String.leb a b = true -> String.leb b a = true -> a = b.
Proof.
  unfold String.leb. rewrite (String.compare_antisym b a).
  destruct (String.compare a b) eqn:E; simpl; try discriminate.
  intros _ _. apply String.compare_eq_iff. exact E.
Qed.

Lemma key_compare_refl (k : Key) : key_compare k k = Eq.
Proof.
  induction k as [|x k IH]; simpl; [reflexivity|].
  rewrite String_compare_refl. exact IH.
Qed.

Lemma key_compare_antisym (a b : Key) :
  key_compare a b = CompOpp (key_compare b a).
Proof.
  revert b. induction a as [|x a IH]; intros [|y b]; simpl;
    try reflexivity.
  rewrite (String.compare_antisym x y), IH.
  destruct (String.compare y x); reflexivity.
Qed.

Lemma key_compare_lt_trans (a b c : Key) :
  key_compare a b = Lt -> key_compare b c = Lt -> key_compare a c = Lt.
Proof.
  revert b c.
  induction a as [|x a IH]; intros [|y b] [|z c]; simpl;
    try congruence.
  destruct (String.compare x y) eqn:Exy; try discriminate;
    destruct (String.compare y z) eqn:Eyz; try discriminate;
    intros H1 H2.
  - apply String.compare_eq_iff in Exy, Eyz. subst.
    rewrite String_compare_refl. exact (IH _ _ H1 H2).
  - apply String.compare_eq_iff in Exy. subst. rewrite Eyz. reflexivity.
  - apply String.compare_eq_iff in Eyz. subst. rewrite Exy. reflexivity.
  - rewrite (String_compare_lt_trans _ _ _ Exy Eyz). reflexivity.
Qed.

Lemma key_compare_eq (a b : Key) : key_compare a b = Eq -> a = b.
Proof.
  revert b. induction a as [|x a IH]; intros [|y b]; simpl;
    try congruence.
  destruct (String.compare x y) eqn:E; try discriminate.
  intro H. apply String.compare_eq_iff in E. subst.
  rewrite (IH b H). reflexivity.
Qed.

Lemma key_leb_total (a b : Key) :
  key_leb a b = false -> key_leb b a = true.
Proof.
  unfold key_leb. rewrite (key_compare_antisym b a).
  destruct (key_compare a b); simpl; congruence.
Qed.

Lemma key_leb_trans (a b c : Key) :
  key_leb a b = true -> key_leb b c = true -> key_leb a c = true.
Proof.
  unfold key_leb.
  destruct (key_compare a b) eqn:Eab; try discriminate;
    destruct (key_compare b c) eqn:Ebc; try discriminate; intros _ _.
  - apply key_compare_eq in Eab, Ebc. subst.
    rewrite key_compare_refl. reflexivity.
  - apply key_compare_eq in Eab. subst. rewrite Ebc. reflexivity.
  - apply key_compare_eq in Ebc. subst. rewrite Eab. reflexivity.
  - rewrite (key_compare_lt_trans _ _ _ Eab Ebc). reflexivity.
Qed.

Section StronglySortedBy.
Context {A : Type}.
Variable leb : A -> A -> bool.
Hypothesis leb_total : forall x y, leb x y = false -> leb y x = true.
Hypothesis leb_trans :
  forall x y z, leb x y = true -> leb y z = true -> leb x z = true.

Lemma insert_by_StronglySorted (x : A) (l : list A) :
  StronglySorted (fun a b => leb a b = true) l ->
  StronglySorted (fun a b => leb a b = true) (insert_by leb x l).
Proof.
  induction l as [|y l IH]; intro H; simpl.
  - constructor; constructor.
  - inversion H as [|? ? Hl Hy]; subst.
    rewrite Forall_forall in Hy.
    destruct (leb x y) eqn:E.
    + constructor; [exact H|]. constructor; [exact E|].
      apply Forall_forall. intros z Hz.
      apply (leb_trans x y z E). apply Hy. exact Hz.
    + constructor; [apply IH; exact Hl|].
      apply Forall_forall. intros z Hz.
      apply (Permutation_in _ (insert_by_perm leb x l)) in Hz.
      destruct Hz as [<-|Hz]; [apply leb_total; exact E | apply Hy; exact Hz].
Qed.

Lemma sort_by_StronglySorted (l : list A) :
  StronglySorted (fun a b => leb a b = true) (sort_by leb l).
Proof.
  induction l as [|x l IH]; simpl; [constructor|].
  apply insert_by_StronglySorted, IH.
Qed.

End StronglySortedBy.

Lemma StronglySorted_map_inv {A B : Type} (f : A -> B)
    (R : B -> B -> Prop) (l : list A) :
  StronglySorted R (map f l) ->
  StronglySorted (fun a b => R (f a) (f b)) l.
Proof.
  induction l as [|x l IH]; simpl; intro H; [constructor|].
  inversion H as [|? ? Hl Hx]; subst.
  constructor; [apply IH; exact Hl|].
  rewrite Forall_forall in Hx |- *. intros z Hz.
  apply Hx. apply in_map. exact Hz.
Qed.

Lemma StronglySorted_map {A B : Type} (f : A -> B)
    (R : B -> B -> Prop) (l : list A) :
  StronglySorted (fun a b => R (f a) (f b)) l ->
  StronglySorted R (map f l).
Proof.
  induction l as [|x l IH]; simpl; intro H; [constructor|].
  inversion H as [|? ? Hl Hx]; subst.
  constructor; [apply IH; exact Hl|].
  rewrite Forall_forall in Hx |- *. intros z Hz.
  apply in_map_iff in Hz. destruct Hz as (a & <- & Ha).
  apply Hx. exact Ha.
Qed.

Lemma StronglySorted_filter_rows {A : Type} (R : A -> A -> Prop)
    (P : A -> bool) (l : list A) :
  StronglySorted R l -> StronglySorted R (filter P l).
Proof.
  induction l as [|x l IH]; simpl; intro H; [constructor|].
  inversion H as [|? ? Hl Hx]; subst.
  destruct (P x); [|apply IH; exact Hl].
  constructor; [apply IH; exact Hl|].
  rewrite Forall_forall in Hx |- *. intros z Hz.
  apply filter_In in Hz. apply Hx. apply Hz.
Qed.

Lemma StronglySorted_weaken_in {A : Type} (R R' : A -> A -> Prop)
    (l : list A) :
  (forall x y, In x l -> In y l -> R x y -> R' x y) ->
  StronglySorted R l -> StronglySorted R' l.
Proof.
  induction l as [|x l IH]; intros HR H; [constructor|].
  inversion H as [|? ? Hl Hx]; subst.
  constructor.
  - apply IH; [|exact Hl]. intros a b Ha Hb. apply HR; right; assumption.
  - rewrite Forall_forall in Hx |- *. intros z Hz.
    apply HR; [left; reflexivity | right; exact Hz | apply Hx; exact Hz].
Qed.

(** [groupby] leaves the rows in ascending order of their keys. *)
Lemma groupby_sorted (keys : list Column) (df : list Row) :
  sorted_by_keys keys (groupby_sum keys df).
Proof.
  unfold sorted_by_keys.
  apply (StronglySorted_map_inv (key_of keys)
           (fun k k' => key_leb k k' = true)).
  rewrite groupby_keys. unfold sort_keys.
  apply sort_by_StronglySorted; [exact key_leb_total | exact key_leb_trans].
Qed.

(* ================================================================== *)
(** ** The plot and the order of the rows of the table *)

Lemma key_leb_names (pre post : list string) (n1 n2 : string) :
  key_leb (pre ++ n1 :: post) (pre ++ n2 :: post) = true ->
  String.leb n1 n2 = true.
Proof.
  unfold key_leb, String.leb.
  induction pre as [|x pre IH]; simpl.
  - destruct (String.compare n1 n2); congruence.
  - rewrite String_compare_refl. exact IH.
Qed.

Lemma steps_sorted (c pl : string) (df : list Row) :
  sorted_by_name
    (country_step c (productline_step pl (groupby_sum all_keys df))).
Proof.
  unfold sorted_by_name, country_step.
  destruct (String.eqb c "ALL").
  - apply (StronglySorted_weaken_in _ _ _
             (fun x y _ _ => key_leb_names [] [] (productname x)
                                           (productname y))).
    apply (groupby_sorted [productname_col]).
  - unfold productline_step. destruct (String.eqb pl "ALL").
    + eapply StronglySorted_weaken_in;
        [|apply StronglySorted_filter_rows;
          apply (groupby_sorted [productname_col; country_col])].
      intros x y Hx Hy. apply where_eq_In in Hx, Hy.
      destruct Hx as [_ Hx]. destruct Hy as [_ Hy]. simpl in Hx, Hy.
      unfold key_of. simpl. rewrite Hx, Hy.
      apply (key_leb_names [] [c]).
    + eapply StronglySorted_weaken_in;
        [|apply StronglySorted_filter_rows, StronglySorted_filter_rows;
          apply (groupby_sorted all_keys)].
      intros x y Hx Hy. apply where_eq_In in Hx, Hy.
      destruct Hx as [Hx Hxc]. destruct Hy as [Hy Hyc].
      apply where_eq_In in Hx, Hy.
      destruct Hx as [_ Hx]. destruct Hy as [_ Hy].
      simpl in Hx, Hy, Hxc, Hyc.
      unfold key_of, all_keys. simpl. rewrite Hx, Hy, Hxc, Hyc.
      apply (key_leb_names [pl] [c]).
Qed.

Lemma aggregated_sorted (df : list SalesRow) (s e : option date)
    (c pl : string) (n : Z) :
  sorted_by_name (aggregated df s e c pl n).
Proof. rewrite aggregated_steps. apply steps_sorted. Qed.

(** Two lists of bars in ascending order of the name, with no name twice
    and the same bars, are the same list. *)
Lemma sorted_bars_unique (l1 l2 : list (string * Z)) :
  StronglySorted (fun a b => String.leb (fst a) (fst b) = true) l1 ->
  StronglySorted (fun a b => String.leb (fst a) (fst b) = true) l2 ->
  NoDup (map fst l1) -> NoDup (map fst l2) ->
  (forall x, In x l1 <-> In x l2) ->
  l1 = l2.
Proof.
  revert l2. induction l1 as [|a l1 IH]; intros l2 S1 S2 N1 N2 Hin.
  - destruct l2 as [|b l2]; [reflexivity|].
    exfalso. apply (proj2 (Hin b)). left. reflexivity.
  - destruct l2 as [|b l2];
      [exfalso; apply (proj1 (Hin a)); left; reflexivity|].
    inversion S1 as [|? ? S1' H1]; subst.
    inversion S2 as [|? ? S2' H2]; subst.
    rewrite Forall_forall in H1, H2.
    simpl in N1, N2.
    inversion N1 as [|? ? Na N1']; subst.
    inversion N2 as [|? ? Nb N2']; subst.
    assert (Eab : a = b).
    { destruct (proj1 (Hin a) (or_introl eq_refl)) as [E|Ha]; [auto|].
      destruct (proj2 (Hin b) (or_introl eq_refl)) as [E|Hb]; [auto|].
      exfalso. apply Nb.
      rewrite (String_leb_antisym _ _ (H2 a Ha) (H1 b Hb)).
      apply in_map. exact Ha. }
    subst b. f_equal.
    apply IH; try assumption.
    intro x. split; intro Hx.
    + destruct (proj1 (Hin x) (or_intror Hx)) as [E|H]; [|exact H].
      exfalso. apply Na. rewrite E. apply in_map. exact Hx.
    + destruct (proj2 (Hin x) (or_intror Hx)) as [E|H]; [|exact H].
      exfalso. apply Nb. rewrite E. apply in_map. exact Hx.
Qed.

Lemma sales_total_perm (Q : SalesRow -> bool) (df df' : list SalesRow) :
  Permutation df df' -> sales_total Q df = sales_total Q df'.
Proof.
  unfold sales_total.
  induction 1 as [|x l l' _ IH|x y l|l l' l'' _ IH1 _ IH2]; simpl.
  - reflexivity.
  - destruct (Q x); simpl; rewrite IH; reflexivity.
  - destruct (Q x), (Q y); simpl; lia.
  - rewrite IH1. exact IH2.
Qed.

(** The bars of the frame that reaches the plotting block: one per product
    name with a matching row, carrying the column's sum over the matching
    rows. *)
Lemma aggregated_bars (df : list SalesRow) (s e : option date)
    (c pl : string) (n : Z) (name : string) (t : Z) :
  In (name, t) (bars (aggregated df s e c pl n))
  <-> (exists r, In r df /\ in_dates s e r = true
                 /\ selected c pl (sales r) = true
                 /\ productname (sales r) = name)
      /\ t = int64_wrap
               (sales_total
                  (fun x => in_dates s e x
                            && (selected c pl (sales x)
                                && named name (sales x))) df).
Proof.
  unfold bars. rewrite in_map_iff. split.
  - intros (p & E & Hp). injection E as <- <-. split.
    + apply (aggregated_names df s e c pl n). apply in_map. exact Hp.
    + apply (aggregated_total df s e c pl n). exact Hp.
  - intros (Hn & ->).
    apply (aggregated_names df s e c pl n) in Hn.
    apply in_map_iff in Hn. destruct Hn as (p & <- & Hp).
    exists p. split; [|exact Hp].
    rewrite (aggregated_total _ _ _ _ _ _ _ Hp). reflexivity.
Qed.

Lemma aggregated_bars_perm (df df' : list SalesRow) (s e : option date)
    (c pl : string) (n : Z) :
  Permutation df df' ->
  bars (aggregated df s e c pl n) = bars (aggregated df' s e c pl n).
Proof.
  intro P.
  assert (Hs : forall d,
            StronglySorted
              (fun a b => String.leb (fst a) (fst b) = true)
              (bars (aggregated d s e c pl n))).
  { intro d. unfold bars.
    apply (StronglySorted_map
             (fun r => (productname r, total_sales r))
             (fun a b => String.leb (fst a) (fst b) = true)).
    apply aggregated_sorted. }
  assert (Hn : forall d, NoDup (map fst (bars (aggregated d s e c pl n)))).
  { intro d. unfold bars. rewrite map_map. simpl.
    apply aggregated_NoDup. }
  apply sorted_bars_unique; auto.
  intros [name t]. rewrite !aggregated_bars.
  rewrite (sales_total_perm _ df df' P).
  split; intros [(r & Hr & H) Ht]; (split; [|exact Ht]); exists r;
    (split; [|exact H]).
  - apply (Permutation_in _ P). exact Hr.
  - apply (Permutation_in _ (Permutation_sym P)). exact Hr.
Qed.

Lemma bars_insert_by (r : Row) (l : list Row) :
  bars (insert_by sales_geb r l)
  = insert_by (fun a b => snd b <=? snd a)
              (productname r, total_sales r) (bars l).
Proof.
  unfold bars. induction l as [|y l IH]; simpl; [reflexivity|].
  unfold sales_geb at 1.
  destruct (total_sales y <=? total_sales r); simpl;
    [reflexivity | rewrite IH; reflexivity].
Qed.

Lemma bars_sort_values (l : list Row) :
  bars (sort_values l) = sort_by (fun a b => snd b <=? snd a) (bars l).
Proof.
  unfold sort_values.
  induction l as [|r l IH]; simpl; [reflexivity|].
  rewrite bars_insert_by, IH. reflexivity.
Qed.

Lemma bars_head (n : Z) (l : list Row) :
  bars (head n l)
  = firstn (if 0 <=? n then Z.to_nat n
            else (List.length (bars l) - Z.to_nat (- n))%nat)
           (bars l).
Proof.
  unfold head, bars. rewrite length_map.
  destruct (0 <=? n); symmetry; apply firstn_map.
Qed.

(** X14. With its 64-bit integer amounts, the chart does not depend on the
    order in which the rows of the table arrive: two tables with the same
    rows in any order give the same bars, in the same order, both in the
    frame that reaches the plotting block and in the frame that is
    plotted. *)
Theorem plot_ignores_the_order_of_the_rows
    (df df' : list SalesRow) (s e : option date) (c pl : string) (n : Z) :
  Permutation df df' ->
  bars (aggregated df s e c pl n) = bars (aggregated df' s e c pl n)
  /\ bars (plot_data df s e c pl n) = bars (plot_data df' s e c pl n)
  /\ (aggregated df s e c pl n = [] <-> aggregated df' s e c pl n = []).
Proof.
  intro P.
  pose proof (aggregated_bars_perm df df' s e c pl n P) as E.
  split; [exact E|]. split.
  - rewrite !plot_data_head, !bars_head, !bars_sort_values, E.
    reflexivity.
  - unfold bars in E.
    destruct (aggregated df s e c pl n), (aggregated df' s e c pl n);
      simpl in E; try discriminate; split; congruence.
Qed.

Lemma plot_ignores_the_order_of_the_rows_witness :
  Permutation example_sales (rev example_sales)
  /\ bars (plot_data example_sales (Some (ymd 2024 1 1))
                     (Some (ymd 2024 2 1)) "ALL" "ALL" 5)
     = bars (plot_data (rev example_sales) (Some (ymd 2024 1 1))
                       (Some (ymd 2024 2 1)) "ALL" "ALL" 5).
Proof.
  assert (P : Permutation example_sales (rev example_sales))
    by apply Permutation_rev.
  split; [exact P|].
  exact (proj1 (proj2 (plot_ignores_the_order_of_the_rows
                         example_sales (rev example_sales)
                         (Some (ymd 2024 1 1)) (Some (ymd 2024 2 1))
                         "ALL" "ALL" 5 P))).
Defined.
